(** * plugins/common/utils.go: flag helpers of the plugin framework

    A shallow embedding of the helpers of package [common] that read flag
    values out of a [components.Context], fall back to the process
    environment, validate two numeric flags and assemble the download
    configuration, together with the part of Go's [strconv], [strings] and
    [sort] packages these helpers call.

    Conventions.  Go's [int] is taken at 64 bits ([strconv.IntSize = 64]);
    [int], [int64] and [uint64] values are [Z] with the wrap-around written
    out.  A Go [string] is a sequence of bytes, here [string] (a list of
    [ascii]).  A nil [error] is [None]; a nil pointer is [None]; a slice is
    a [list] (the nil slice is [[]]). *)

From Stdlib Require Import ZArith NArith String Ascii List Bool Lia.
From Stdlib Require Import DecimalString DecimalPos Sorted Permutation OrdersEx.
From stdpp Require Import base gmap strings list sorting.

Local Open Scope string_scope.
Local Open Scope Z_scope.

(** ** Bytes *)

Definition byte_of (a : ascii) : Z := Z.of_N (N_of_ascii a).

(** ** Package strconv *)

Module strconv.

(** The [Err] field of a [*NumError]. *)
Inductive Err : Set := ErrSyntax | ErrRange | ErrBase | ErrBitSize.

Definition IntSize : Z := 64.

Definition maxUint64 : Z := 2 ^ 64 - 1.

(** [uint64(z)] and [int64(z)]: reduction modulo [2^64]. *)
Definition to_uint64 (z : Z) : Z := z mod 2 ^ 64.

Definition to_int64 (z : Z) : Z := (z + 2 ^ 63) mod 2 ^ 64 - 2 ^ 63.

(** [lower(c)] is [c | ('x' - 'X')]. *)
Definition lower (c : Z) : Z := Z.lor c (120 - 88).

(** The value of byte [c] as a digit, [None] where [ParseUint] takes its
    [default:] branch. *)
Definition digitVal (c : Z) : option Z :=
  if (48 <=? c) && (c <=? 57) then Some (c - 48)
  else if (97 <=? lower c) && (lower c <=? 122) then Some (lower c - 97 + 10)
  else None.

(** The [for _, c := range []byte(s)] loop of [ParseUint]; the result is
    the accumulator, the [underscores] flag and the error of an early
    return. *)
Fixpoint digitsLoop (base0 : bool) (base cutoff maxVal : Z) (s : string)
         (n : Z) (underscores : bool) : Z * bool * option Err :=
  match s with
  | EmptyString => (n, underscores, None)
  | String ch rest =>
      let c := byte_of ch in
      if (c =? 95) && base0 then
        digitsLoop base0 base cutoff maxVal rest n true
      else
        match digitVal c with
        | None => (0, underscores, Some ErrSyntax)
        | Some d =>
            if d >=? base mod 256 then (0, underscores, Some ErrSyntax)
            else if n >=? cutoff then (maxVal, underscores, Some ErrRange)
            else
              let n' := to_uint64 (n * base) in
              let n1 := to_uint64 (n' + d) in
              if (n1 <? n') || (n1 >? maxVal)
              then (maxVal, underscores, Some ErrRange)
              else digitsLoop base0 base cutoff maxVal rest n1 underscores
        end
  end.

(** What [underscoreOK] last saw: ['^'], ['0'], ['_'] or ['!']. *)
Inductive Saw : Set := SawStart | SawDigit | SawUnderscore | SawOther.

Definition isSign (c : Z) : bool := (c =? 45) || (c =? 43).

Definition isBasePrefix (c : Z) : bool :=
  (lower c =? 98) || (lower c =? 111) || (lower c =? 120).

(** The [for ; i < len(s); i++] loop of [underscoreOK]. *)
Fixpoint underscoreLoop (hex : bool) (s : string) (saw : Saw) : bool :=
  match s with
  | EmptyString => match saw with SawUnderscore => false | _ => true end
  | String ch rest =>
      let c := byte_of ch in
      if ((48 <=? c) && (c <=? 57))
         || (hex && (97 <=? lower c) && (lower c <=? 102))
      then underscoreLoop hex rest SawDigit
      else if c =? 95 then
        match saw with
        | SawDigit => underscoreLoop hex rest SawUnderscore
        | _ => false
        end
      else
        match saw with
        | SawUnderscore => false
        | _ => underscoreLoop hex rest SawOther
        end
  end.

Definition underscoreOK (s : string) : bool :=
  let s :=
    match s with
    | String c0 rest => if isSign (byte_of c0) then rest else s
    | EmptyString => s
    end in
  match s with
  | String c0 (String c1 rest) =>
      if (byte_of c0 =? 48) && isBasePrefix (byte_of c1)
      then underscoreLoop (lower (byte_of c1) =? 120) rest SawDigit
      else underscoreLoop false s SawStart
  | _ => underscoreLoop false s SawStart
  end.

(** The base and the digits left after the prefix, for [base == 0]. *)
Definition detectBase (s : string) : Z * string :=
  match s with
  | String c0 rest =>
      if byte_of c0 =? 48 then
        match rest with
        | String c1 rest' =>
            if (3 <=? Z.of_nat (String.length s)) && (lower (byte_of c1) =? 98)
            then (2, rest')
            else if (3 <=? Z.of_nat (String.length s)) && (lower (byte_of c1) =? 111)
            then (8, rest')
            else if (3 <=? Z.of_nat (String.length s)) && (lower (byte_of c1) =? 120)
            then (16, rest')
            else (8, rest)
        | EmptyString => (8, rest)
        end
      else (10, s)
  | EmptyString => (10, s)
  end.

Definition ParseUint (s : string) (base bitSize : Z) : Z * option Err :=
  match s with
  | EmptyString => (0, Some ErrSyntax)
  | _ =>
      let base0 := base =? 0 in
      let s0 := s in
      if negb (((2 <=? base) && (base <=? 36)) || base0)
      then (0, Some ErrBase)
      else
        let '(base, s) := if base0 then detectBase s else (base, s) in
        if (bitSize <? 0) || (bitSize >? 64) then (0, Some ErrBitSize)
        else
          let bitSize := if bitSize =? 0 then IntSize else bitSize in
          let cutoff := maxUint64 / base + 1 in
          let maxVal := to_uint64 (Z.shiftl 1 bitSize - 1) in
          match digitsLoop base0 base cutoff maxVal s 0 false with
          | (v, _, Some e) => (v, Some e)
          | (n, underscores, None) =>
              if underscores && negb (underscoreOK s0)
              then (0, Some ErrSyntax)
              else (n, None)
          end
  end.

Definition ParseInt (s : string) (base bitSize : Z) : Z * option Err :=
  match s with
  | EmptyString => (0, Some ErrSyntax)
  | String c0 rest =>
      let s0 := s in
      let '(neg, s) :=
        if byte_of c0 =? 43 then (false, rest)
        else if byte_of c0 =? 45 then (true, rest)
        else (false, s) in
      match ParseUint s base bitSize with
      | (_, Some ErrSyntax) => (0, Some ErrSyntax)
      | (_, Some ErrBase) => (0, Some ErrBase)
      | (_, Some ErrBitSize) => (0, Some ErrBitSize)
      | (un, _) =>
          let bitSize := if bitSize =? 0 then IntSize else bitSize in
          let cutoff := to_uint64 (Z.shiftl 1 (bitSize - 1)) in
          if negb neg && (un >=? cutoff)
          then (to_int64 (cutoff - 1), Some ErrRange)
          else if neg && (un >? cutoff)
          then (to_int64 (- to_int64 cutoff), Some ErrRange)
          else
            let n := to_int64 un in
            ((if neg then to_int64 (- n) else n), None)
      end
  end.

(** The fast path loop of [Atoi]: [ch -= '0'] on a byte, then
    [n = n*10 + int(ch)]. *)
Fixpoint atoiLoop (s : string) (n : Z) : option Z :=
  match s with
  | EmptyString => Some n
  | String ch rest =>
      let ch := (byte_of ch - 48) mod 256 in
      if ch >? 9 then None
      else atoiLoop rest (to_int64 (n * 10 + ch))
  end.

Definition Atoi (s : string) : Z * option Err :=
  let sLen := Z.of_nat (String.length s) in
  if (IntSize =? 64) && (0 <? sLen) && (sLen <? 19) then
    match s with
    | EmptyString => (0, Some ErrSyntax)
    | String c0 rest =>
        let signed := isSign (byte_of c0) in
        let digits := if signed then rest else s in
        if signed && (Z.of_nat (String.length digits) <? 1)
        then (0, Some ErrSyntax)
        else
          match atoiLoop digits 0 with
          | None => (0, Some ErrSyntax)
          | Some n =>
              ((if byte_of c0 =? 45 then to_int64 (- n) else n), None)
          end
    end
  else
    let '(i64, err) := ParseInt s 10 0 in (to_int64 i64, err).

(** [Itoa(i)] is [FormatInt(int64(i), 10)]: the decimal digits of [i],
    with a leading ['-'] when it is negative. *)
Definition Itoa (i : Z) : string := NilZero.string_of_int (Z.to_int i).

Definition ParseBool (str : string) : bool * option Err :=
  if String.eqb str "1" || String.eqb str "t" || String.eqb str "T"
     || String.eqb str "true" || String.eqb str "TRUE" || String.eqb str "True"
  then (true, None)
  else if String.eqb str "0" || String.eqb str "f" || String.eqb str "F"
     || String.eqb str "false" || String.eqb str "FALSE" || String.eqb str "False"
  then (false, None)
  else (false, Some ErrSyntax).

End strconv.

(** ** Package strings *)

Module strings.

(** [Split(s, sep)] at a one-byte separator, the way this package calls it
    (with [";"]): the substrings between the separators, in order; a
    string without separator is its only segment. *)
Fixpoint Split (s : string) (sep : ascii) : list string :=
  match s with
  | EmptyString => [EmptyString]
  | String ch rest =>
      if Ascii.eqb ch sep then EmptyString :: Split rest sep
      else
        match Split rest sep with
        | seg :: segs => String ch seg :: segs
        | [] => [String ch EmptyString]
        end
  end.

(** [Count(s, sep)] at a one-byte separator. *)
Fixpoint Count (s : string) (sep : ascii) : nat :=
  match s with
  | EmptyString => O
  | String ch rest => (if Ascii.eqb ch sep then 1 else 0) + Count rest sep
  end.

(** [Join(elems, sep)]. *)
Definition Join (elems : list string) (sep : string) : string :=
  String.concat sep elems.

(** [Contains(s, substr)], as a proposition. *)
Definition Contains (s substr : string) : Prop :=
  exists pre post : string, s = pre ++ substr ++ post.

End strings.

(** ** Errors, panics, the environment *)

(** Go's [error] values met in this package: [errors.New(text)], the
    [*NumError] of [strconv], and an error wrapped with a message by
    [CheckErrorWithMessage]. *)
Inductive error : Type :=
| errors_New (text : string)
| NumError (e : strconv.Err)
| WithMessage (message : string) (cause : error).

Definition NumError_of (e : option strconv.Err) : option error :=
  match e with
  | Some k => Some (NumError k)
  | None => None
  end.

(** A call either returns or panics at run time. *)
Inductive outcome (A : Type) : Type :=
| Returns (a : A)
| Panics.

Arguments Returns {A} a.
Arguments Panics {A}.

Definition obind {A B : Type} (m : outcome A) (k : A -> outcome B) : outcome B :=
  match m with
  | Returns a => k a
  | Panics => Panics
  end.

Notation "x <-! m ; k" := (obind m (fun x => k))
  (at level 100, m at next level, right associativity).

(** The process environment: the variables that are set, with their
    values.  [os.Getenv] gives the empty string for a variable that is not
    set. *)
Definition os_Getenv (env : gmap string string) (key : string) : string :=
  default EmptyString (env !! key).

(** [CheckErrorWithMessage] of jfrog-client-go's [errorutils]: nil for a nil
    error, otherwise the error under the message. *)
Definition CheckErrorWithMessage (err : option error) (message : string)
  : option error :=
  match err with
  | None => None
  | Some e => Some (WithMessage message e)
  end.

(** [GetBoolEnvValue] of jfrog-client-go's [utils]: the default for a
    variable that is empty or not set, otherwise [strconv.ParseBool] of its
    value. *)
Definition GetBoolEnvValue (env : gmap string string) (flagName : string)
           (defValue : bool) : bool * option error :=
  let envVarValue := os_Getenv env flagName in
  if String.eqb envVarValue EmptyString then (defValue, None)
  else
    let '(val, err) := strconv.ParseBool envVarValue in
    (val, CheckErrorWithMessage (NumError_of err)
            ("can't parse environment variable " ++ flagName)).

(** ** Package sort *)

Module sort.

Section Slice.

Context {A : Type}.

(** [less(i, j)] reads the elements at [i] and [j]; it is given here on
    the elements themselves, and may panic. *)
Variable less : A -> A -> outcome bool.

(** The inner loop of [insertionSortLessFunc]:
    [for j := i; j > a && less(j, j-1); j-- { swap(j, j-1) }].
    [before] is the part of the slice before [x], last element first. *)
Fixpoint insertBack (x : A) (before : list A) : outcome (list A) :=
  match before with
  | [] => Returns [x]
  | y :: before' =>
      b <-! less x y;
      if b : bool then
        r <-! insertBack x before';
        Returns (y :: r)
      else Returns (x :: y :: before')
  end.

(** The outer loop, [for i := a + 1; i < b; i++]. *)
Fixpoint insertionSort (data before : list A) : outcome (list A) :=
  match data with
  | [] => Returns (rev before)
  | x :: rest =>
      before' <-! insertBack x before;
      insertionSort rest before'
  end.

(** [maxInsertion] of [pdqsort_func]. *)
Definition maxInsertion : nat := 12.

(** What [pdqsort_func] does on a slice of more than [maxInsertion]
    elements is not embedded: [pdqsortLong] stands for it. *)
Variable pdqsortLong : (A -> A -> outcome bool) -> list A -> outcome (list A).

(** [sort.Slice(x, less)] runs [pdqsort_func], which sorts a slice of at
    most [maxInsertion] elements by [insertionSortLessFunc] and returns. *)
Definition Slice (x : list A) : outcome (list A) :=
  if (length x <=? maxInsertion)%nat then insertionSort x []
  else pdqsortLong less x.

(** What package sort asks of [less] ([Interface.Less]), on the elements of
    [x]: it returns, no element is less than itself, and it describes a
    transitive ordering, in both senses. *)
Definition lessRequirements (x : list A) : Prop :=
  (forall a b, In a x -> In b x -> exists c, less a b = Returns c)
  /\ (forall a, In a x -> less a a = Returns false)
  /\ (forall a b c, In a x -> In b x -> In c x ->
      less a b = Returns true -> less b c = Returns true ->
      less a c = Returns true)
  /\ (forall a b c, In a x -> In b x -> In c x ->
      less a b = Returns false -> less b c = Returns false ->
      less a c = Returns false).

(** [notLess a b]: [a] is not less than [b]. *)
Definition notLess (a b : A) : Prop := less a b = Returns false.

(** [SliceIsSorted]: no element is less than the one before it. *)
Definition isSorted (r : list A) : Prop :=
  Sorted (fun a b => notLess b a) r.

End Slice.

(** What package sort promises of [sort.Slice] on the path that is not
    embedded: with a [less] that meets the requirements, the slice comes
    back rearranged and sorted. *)
Definition SortsLong {A : Type}
           (pdqsortLong : (A -> A -> outcome bool) -> list A -> outcome (list A))
  : Prop :=
  forall (less : A -> A -> outcome bool) (x : list A),
    (maxInsertion < length x)%nat ->
    lessRequirements less x ->
    exists r : list A,
      pdqsortLong less x = Returns r
      /\ Permutation r x
      /\ isSorted less r.

End sort.

(** ** Package common *)

(** Modelled from the spec: [components.Context], declared in package
    [components] of this repository, of which this file uses three methods:
    whether a named flag was explicitly supplied, its string value and its
    boolean value. *)
Record Context : Type := {
  IsFlagSet : string -> bool;
  GetStringFlagValue : string -> string;
  GetBoolFlagValue : string -> bool
}.

(** Modelled from the spec: [artifactoryUtils.DownloadConfiguration], with
    the five fields this file assigns: minimum split size, split count,
    thread count, checksum-skip flag, symlink flag. *)
Record DownloadConfiguration : Type := {
  Threads : Z;
  SplitCount : Z;
  MinSplitSize : Z;
  Symlink : bool;
  SkipChecksum : bool
}.

(** [new(artifactoryUtils.DownloadConfiguration)]: every field at its zero
    value. *)
Definition new_DownloadConfiguration : DownloadConfiguration :=
  {| Threads := 0; SplitCount := 0; MinSplitSize := 0;
     Symlink := false; SkipChecksum := false |}.

Definition set_MinSplitSize (v : Z) (d : DownloadConfiguration) :=
  {| Threads := Threads d; SplitCount := SplitCount d; MinSplitSize := v;
     Symlink := Symlink d; SkipChecksum := SkipChecksum d |}.

Definition set_SplitCount (v : Z) (d : DownloadConfiguration) :=
  {| Threads := Threads d; SplitCount := v; MinSplitSize := MinSplitSize d;
     Symlink := Symlink d; SkipChecksum := SkipChecksum d |}.

Definition set_Threads (v : Z) (d : DownloadConfiguration) :=
  {| Threads := v; SplitCount := SplitCount d; MinSplitSize := MinSplitSize d;
     Symlink := Symlink d; SkipChecksum := SkipChecksum d |}.

Definition set_SkipChecksum (v : bool) (d : DownloadConfiguration) :=
  {| Threads := Threads d; SplitCount := SplitCount d;
     MinSplitSize := MinSplitSize d;
     Symlink := Symlink d; SkipChecksum := v |}.

Definition set_Symlink (v : bool) (d : DownloadConfiguration) :=
  {| Threads := Threads d; SplitCount := SplitCount d;
     MinSplitSize := MinSplitSize d;
     Symlink := v; SkipChecksum := SkipChecksum d |}.

(** A line handed to [log.Error], by its operands. *)
Inductive LogEntry : Type := log_Error (operands : list string).

Definition minSplit : string := "min-split".
Definition DownloadMinSplitKb : Z := 5120.
Definition DownloadSplitCount : Z := 3.
Definition DownloadMaxSplitCount : Z := 15.

Definition semicolon : ascii := ";"%char.

(** The string of one double quote. *)
Definition quote : string := String (ascii_of_nat 34) EmptyString.

Section Common.

(** Constants of package [coreutils] of this repository: the help URL and
    the names of the two environment variables. *)
Variable JFrogHelpUrl : string.
Variable CI : string.
Variable Project : string.

(** [cliutils.GetThreadsCount], of package [cliutils] of this repository:
    the thread count parsed from the flag's string value, or an error. *)
Variable cliutils_GetThreadsCount : string -> Z * option error.

(** [components.Flag] is an interface: [Flag] is the type of the values
    that implement it and [GetName] their method.  An interface value is
    an [option Flag], [None] for nil, which is the zero value a map gives
    for an absent key; a method call on it panics. *)
Variable Flag : Type.
Variable GetName : Flag -> string.

(** The path of [sort.Slice] for more than 12 flags (see [sort.Slice]). *)
Variable pdqsortLong :
  (option Flag -> option Flag -> outcome bool) ->
  list (option Flag) -> outcome (list (option Flag)).

Definition GetStringsArrFlagValue (c : Context) (flagName : string)
  : list string :=
  let resultArray := [] in
  if IsFlagSet c flagName
  then resultArray ++ strings.Split (GetStringFlagValue c flagName) semicolon
  else resultArray.

Definition OverrideArrayIfSet (field : list string) (c : Context)
           (fieldName : string) : list string :=
  if IsFlagSet c fieldName
  then [] ++ strings.Split (GetStringFlagValue c fieldName) semicolon
  else field.

(** [field] is the integer behind the pointer; the result is the integer
    behind it when the call returns. *)
Definition OverrideIntIfSet (field : Z) (c : Context) (fieldName : string)
  : Z :=
  if IsFlagSet c fieldName then
    let '(value, err) :=
      strconv.ParseInt (GetStringFlagValue c fieldName) 0 64 in
    match err with
    | Some _ => field
    | None => strconv.to_int64 value
    end
  else field.

Definition OverrideStringIfSet (field : string) (c : Context)
           (fieldName : string) : string :=
  if IsFlagSet c fieldName then GetStringFlagValue c fieldName else field.

Definition GetThreadsCount (c : Context) : Z * option error :=
  cliutils_GetThreadsCount (GetStringFlagValue c "threads").

(** The function literal given to [sort.Slice]:
    [flags[i].GetName() < flags[j].GetName()]. *)
Definition lessByName (a b : option Flag) : outcome bool :=
  match a, b with
  | Some x, Some y => Returns (String.ltb (GetName x) (GetName y))
  | _, _ => Panics
  end.

(** Names ascending, and names descending. *)
Definition nameLe (a b : Flag) : Prop :=
  String.leb (GetName a) (GetName b) = true.

Definition nameGe (a b : Flag) : Prop := nameLe b a.

(** The [for _, flag := range keys] loop: [flagsMap[flag]] appended for
    each key. *)
Definition lookupFlags (keys : list string)
           (flagsMap : gmap string (option Flag)) : list (option Flag) :=
  map (fun flag => default None (flagsMap !! flag)) keys.

Definition buildAndSortFlags (keys : list string)
           (flagsMap : gmap string (option Flag))
  : outcome (list (option Flag)) :=
  sort.Slice lessByName pdqsortLong (lookupFlags keys flagsMap).

(** The result comes with the lines written to the log. *)
Definition GetCommandFlags (cmdKey : string)
           (commandToFlags : gmap string (list string))
           (flagsMap : gmap string (option Flag))
  : list LogEntry * outcome (list (option Flag)) :=
  match commandToFlags !! cmdKey with
  | None =>
      ([log_Error ["The command " ++ quote; cmdKey;
                   quote ++ " is not found in commands flags map."]],
       Returns [])
  | Some flagList => ([], buildAndSortFlags flagList flagsMap)
  end.

Definition getCiValue (env : gmap string string) : bool :=
  let '(ci, err) := GetBoolEnvValue env CI false in
  match err with
  | Some _ => false
  | None => ci
  end.

Definition GetQuietValue (c : Context) (env : gmap string string) : bool :=
  if IsFlagSet c "quiet" then GetBoolFlagValue c "quiet"
  else getCiValue env.

Definition getOrDefaultEnv (env : gmap string string) (arg envKey : string)
  : string :=
  if negb (String.eqb arg EmptyString) then arg else os_Getenv env envKey.

Definition GetProject (c : Context) (env : gmap string string) : string :=
  let projectKey := GetStringFlagValue c "project" in
  getOrDefaultEnv env projectKey Project.

Definition GetDocumentationMessage : string :=
  "You can read the documentation at " ++ JFrogHelpUrl ++ "jfrog-cli".

Definition getMinSplit (c : Context) (defaultMinSplit : Z)
  : Z * option error :=
  let minSplitSize := defaultMinSplit in
  if negb (String.eqb (GetStringFlagValue c minSplit) EmptyString) then
    let '(minSplitSize, err) :=
      strconv.ParseInt (GetStringFlagValue c minSplit) 10 64 in
    match err with
    | Some _ =>
        (0, Some (errors_New
                    ("The '--min-split' option should have a numeric value. "
                     ++ GetDocumentationMessage)))
    | None => (minSplitSize, None)
    end
  else (minSplitSize, None).

Definition getSplitCount (c : Context) (defaultSplitCount maxSplitCount : Z)
  : Z * option error :=
  let splitCount := defaultSplitCount in
  let err : option error := None in
  if negb (String.eqb (GetStringFlagValue c "split-count") EmptyString) then
    let '(splitCount, perr) :=
      strconv.Atoi (GetStringFlagValue c "split-count") in
    let err := NumError_of perr in
    let err :=
      match err with
      | Some _ =>
          Some (errors_New
                  ("The '--split-count' option should have a numeric value. "
                   ++ GetDocumentationMessage))
      | None => err
      end in
    let err :=
      if splitCount >? maxSplitCount
      then Some (errors_New
                   ("The '--split-count' option value is limited to a maximum of "
                    ++ strconv.Itoa maxSplitCount ++ "."))
      else err in
    let err :=
      if splitCount <? 0
      then Some (errors_New
                   "the '--split-count' option cannot have a negative value")
      else err in
    (splitCount, err)
  else (splitCount, err).

Definition CreateDownloadConfiguration (c : Context)
  : option DownloadConfiguration * option error :=
  let downloadConfiguration := new_DownloadConfiguration in
  let '(v, err) := getMinSplit c DownloadMinSplitKb in
  let downloadConfiguration := set_MinSplitSize v downloadConfiguration in
  match err with
  | Some e => (None, Some e)
  | None =>
      let '(v, err) :=
        getSplitCount c DownloadSplitCount DownloadMaxSplitCount in
      let downloadConfiguration := set_SplitCount v downloadConfiguration in
      match err with
      | Some e => (None, Some e)
      | None =>
          let '(v, err) := GetThreadsCount c in
          let downloadConfiguration := set_Threads v downloadConfiguration in
          match err with
          | Some e => (None, Some e)
          | None =>
              let downloadConfiguration :=
                set_SkipChecksum (GetBoolFlagValue c "skip-checksum")
                                 downloadConfiguration in
              let downloadConfiguration :=
                set_Symlink true downloadConfiguration in
              (Some downloadConfiguration, err)
          end
      end
  end.

End Common.

Arguments lessByName {Flag} GetName a b.
Arguments nameLe {Flag} GetName a b.
Arguments nameGe {Flag} GetName a b.
Arguments lookupFlags {Flag} keys flagsMap.
Arguments buildAndSortFlags {Flag} GetName pdqsortLong keys flagsMap.
Arguments GetCommandFlags {Flag} GetName pdqsortLong cmdKey commandToFlags flagsMap.

(** The three errors of [getSplitCount] and the error of [getMinSplit]. *)
Definition splitCountNotNumeric (JFrogHelpUrl : string) : error :=
  errors_New ("The '--split-count' option should have a numeric value. "
              ++ GetDocumentationMessage JFrogHelpUrl).

Definition splitCountAboveMax (maxSplitCount : Z) : error :=
  errors_New ("The '--split-count' option value is limited to a maximum of "
              ++ strconv.Itoa maxSplitCount ++ ".").

Definition splitCountNegative : error :=
  errors_New "the '--split-count' option cannot have a negative value".

Definition minSplitNotNumeric (JFrogHelpUrl : string) : error :=
  errors_New ("The '--min-split' option should have a numeric value. "
              ++ GetDocumentationMessage JFrogHelpUrl).

(** The error [getSplitCount] is left with after its three checks, on the
    value and the error of [Atoi]. *)
Definition lastViolation (JFrogHelpUrl : string) (v : Z) (perr : option strconv.Err)
           (maxSplitCount : Z) : option error :=
  if v <? 0 then Some splitCountNegative
  else if v >? maxSplitCount then Some (splitCountAboveMax maxSplitCount)
  else match perr with
       | Some _ => Some (splitCountNotNumeric JFrogHelpUrl)
       | None => None
       end.

(** ** Concrete instances *)

Module Example.

(** A context over the string flags and the boolean flags of a command
    line: a flag is set when either map holds it. *)
Definition flagsContext (stringFlags : gmap string string)
           (boolFlags : gmap string bool) : Context :=
  {| IsFlagSet flagName :=
       bool_decide (is_Some (stringFlags !! flagName))
       || bool_decide (is_Some (boolFlags !! flagName));
     GetStringFlagValue flagName := default EmptyString (stringFlags !! flagName);
     GetBoolFlagValue flagName := default false (boolFlags !! flagName) |}.

Definition JFrogHelpUrl : string := "https://jfrog.com/help/r/".
Definition CI : string := "CI".
Definition Project : string := "JFROG_CLI_BUILD_PROJECT".

(** A thread count parser: 3 for an empty value, otherwise a positive
    decimal number. *)
Definition GetThreadsCount (threadCountStringValue : string)
  : Z * option error :=
  if String.eqb threadCountStringValue EmptyString then (3, None)
  else
    let '(threads, err) := strconv.Atoi threadCountStringValue in
    match err with
    | Some _ =>
        (0, Some (errors_New
                    "the '--threads' option should have a numeric positive value"))
    | None =>
        if threads <? 1
        then (0, Some (errors_New
                         "the '--threads' option should have a numeric positive value"))
        else (threads, None)
    end.

(** A flag descriptor with a name and a description. *)
Record StringFlag : Type := { Name : string; Description : string }.

Definition threadsFlag : StringFlag :=
  {| Name := "threads"; Description := "Number of working threads." |}.

Definition quietFlag : StringFlag :=
  {| Name := "quiet"; Description := "Skip the confirmation message." |}.

Definition flagsMap : gmap string (option StringFlag) :=
  {[ "threads" := Some threadsFlag; "quiet" := Some quietFlag ]}.

Definition commandToFlags : gmap string (list string) :=
  {[ "build" := ["threads"; "quiet"] ]}.

(** A sort to stand, in the examples, for the part of [sort.Slice] that is
    not embedded.  It keeps the promise of package sort; on flags with
    different names every sort that does returns the same list. *)
Definition longSort
           (less : option StringFlag -> option StringFlag -> outcome bool)
           (x : list (option StringFlag)) : outcome (list (option StringFlag)) :=
  sort.insertionSort less x [].





End Example.

(** ** Decimal syntax *)

(** A byte between ['0'] and ['9']. *)
Definition isDigit (ch : ascii) : bool :=
  (48 <=? byte_of ch) && (byte_of ch <=? 57).

Fixpoint allDigits (s : string) : bool :=
  match s with
  | EmptyString => true
  | String ch rest => isDigit ch && allDigits rest
  end.

(** An optional sign followed by one decimal digit or more. *)
Definition decimalSyntax (s : string) : bool :=
  match s with
  | EmptyString => false
  | String c0 rest =>
      if strconv.isSign (byte_of c0)
      then negb (String.eqb rest EmptyString) && allDigits rest
      else allDigits s
  end.

(** The values of an [int64]. *)
Definition isInt64 (z : Z) : Prop := - 2 ^ 63 <= z < 2 ^ 63.

(** The values [strconv.ParseBool] reads as true. *)
Definition trueValues : list string :=
  ["1"; "t"; "T"; "true"; "TRUE"; "True"].

(** What [ParseInt] in base 10 at 64 bits, and [Atoi], can return on [s]: a
    value only for a decimal number, 0 with a syntax error, the nearest
    bound with a range error. *)
Definition ParseInt_result (s : string) (v : Z) (e : option strconv.Err) : Prop :=
  match e with
  | None => decimalSyntax s = true /\ isInt64 v
  | Some strconv.ErrSyntax => v = 0
  | Some strconv.ErrRange =>
      v = 9223372036854775807 \/ v = -9223372036854775808
  | Some _ => False
  end.

(** A decimal number with no leading zero. *)
Definition plainDecimal (s : string) : bool :=
  match s with
  | EmptyString => false
  | String c0 rest =>
      if strconv.isSign (byte_of c0)
      then match rest with
           | String c1 _ => negb (byte_of c1 =? 48) && allDigits rest
           | EmptyString => false
           end
      else negb (byte_of c0 =? 48) && allDigits s
  end.

(** The number a sequence of decimal digits denotes after the digits read
    so far, which denote [acc]. *)
Fixpoint uintValue (d : Decimal.uint) (acc : Z) : Z :=
  match d with
  | Decimal.Nil => acc
  | Decimal.D0 l => uintValue l (10 * acc)
  | Decimal.D1 l => uintValue l (10 * acc + 1)
  | Decimal.D2 l => uintValue l (10 * acc + 2)
  | Decimal.D3 l => uintValue l (10 * acc + 3)
  | Decimal.D4 l => uintValue l (10 * acc + 4)
  | Decimal.D5 l => uintValue l (10 * acc + 5)
  | Decimal.D6 l => uintValue l (10 * acc + 6)
  | Decimal.D7 l => uintValue l (10 * acc + 7)
  | Decimal.D8 l => uintValue l (10 * acc + 8)
  | Decimal.D9 l => uintValue l (10 * acc + 9)
  end.

(** Two commands that list the same flags in different orders. *)
Definition twoCommands : gmap string (list string) :=
  {[ "build" := ["threads"; "quiet"]; "scan" := ["quiet"; "threads"] ]}.

(** * Facts *)

(** ** The order of strings *)

Lemma compare_as_OT (a b : string) : String_as_OT.compare a b = String.compare a b.
Proof.
  revert b; induction a as [|x a IH]; intros [|y b]; reflexivity.
Qed.

Lemma string_lt_trans (a b c : string) :
  String.compare a b = Lt -> String.compare b c = Lt -> String.compare a c = Lt.
Proof.
  rewrite <- !compare_as_OT.
  apply (@StrictOrder_Transitive _ _ String_as_OT.lt_strorder).
Qed.

Lemma string_compare_refl (a : string) : String.compare a a = Eq.
Proof.
  destruct (String.compare a a) eqn:E; trivial.
  - pose proof (string_lt_trans _ _ _ E E) as H.
    rewrite <- compare_as_OT in H.
    destruct (@StrictOrder_Irreflexive _ _ String_as_OT.lt_strorder a H).
  - pose proof (String.compare_antisym a a) as H. rewrite E in H. discriminate.
Qed.

Lemma string_leb_trans (a b c : string) :
  String.leb a b = true -> String.leb b c = true -> String.leb a c = true.
Proof.
  unfold String.leb.
  destruct (String.compare a b) eqn:Eab; try discriminate;
    destruct (String.compare b c) eqn:Ebc; try discriminate; intros _ _.
  - apply String.compare_eq_iff in Eab, Ebc; subst. now rewrite string_compare_refl.
  - apply String.compare_eq_iff in Eab; subst. now rewrite Ebc.
  - apply String.compare_eq_iff in Ebc; subst. now rewrite Eab.
  - now rewrite (string_lt_trans _ _ _ Eab Ebc).
Qed.

Lemma string_ltb_leb (a b : string) :
  String.ltb a b = true -> String.leb a b = true.
Proof. unfold String.ltb, String.leb. now destruct (String.compare a b). Qed.

Lemma string_nltb_leb (a b : string) :
  String.ltb a b = false -> String.leb b a = true.
Proof.
  unfold String.ltb, String.leb. rewrite (String.compare_antisym b a).
  now destruct (String.compare a b).
Qed.

(** ** strings.Split *)

Lemma Split_not_nil (s : string) (sep : ascii) : strings.Split s sep <> [].
Proof.
  destruct s as [|ch rest]; simpl; [discriminate|].
  destruct (Ascii.eqb ch sep); [discriminate|].
  destruct (strings.Split rest sep); discriminate.
Qed.

Lemma length_Split (s : string) (sep : ascii) :
  length (strings.Split s sep) = S (strings.Count s sep).
Proof.
  induction s as [|ch rest IH]; simpl; [reflexivity|].
  destruct (Ascii.eqb ch sep); simpl; [now rewrite IH|].
  destruct (strings.Split rest sep) as [|seg segs] eqn:E; simpl in *; [discriminate|].
  exact IH.
Qed.

Lemma concat_cons (sep x : string) (xs : list string) :
  xs <> [] ->
  String.concat sep (x :: xs) = (x ++ sep ++ String.concat sep xs)%string.
Proof. destruct xs; [contradiction | reflexivity]. Qed.

Lemma Join_Split (s : string) (sep : ascii) :
  strings.Join (strings.Split s sep) (String sep EmptyString) = s.
Proof.
  unfold strings.Join.
  induction s as [|ch rest IH]; simpl; [reflexivity|].
  pose proof (Split_not_nil rest sep) as N.
  destruct (Ascii.eqb ch sep) eqn:E.
  - apply Ascii.eqb_eq in E; subst ch.
    rewrite concat_cons by assumption. simpl. now rewrite IH.
  - destruct (strings.Split rest sep) as [|seg segs]; [contradiction|].
    destruct segs as [|seg' segs'].
    + simpl in *. now rewrite IH.
    + rewrite concat_cons in IH by discriminate.
      rewrite concat_cons by discriminate.
      now rewrite <- IH.
Qed.

Lemma Split_segments (s : string) (sep : ascii) :
  Forall (fun seg => strings.Count seg sep = O) (strings.Split s sep).
Proof.
  induction s as [|ch rest IH]; simpl.
  - constructor; [reflexivity | constructor].
  - destruct (Ascii.eqb ch sep) eqn:E.
    + constructor; [reflexivity | exact IH].
    + destruct (strings.Split rest sep) as [|seg segs].
      * constructor; [simpl; now rewrite E | constructor].
      * inversion IH; subst. constructor; [simpl; now rewrite E | assumption].
Qed.

Lemma append_String (ch : ascii) (s t : string) :
  (String ch s ++ t)%string = String ch (s ++ t)%string.
Proof. reflexivity. Qed.

Lemma append_Empty (t : string) : (EmptyString ++ t)%string = t.
Proof. reflexivity. Qed.

Lemma append_Empty_r (t : string) : (t ++ EmptyString)%string = t.
Proof. induction t as [|ch t IH]; [reflexivity|]. now rewrite append_String, IH. Qed.

Lemma Split_segment (seg rest : string) (sep : ascii) :
  strings.Count seg sep = O ->
  strings.Split (seg ++ String sep rest) sep = seg :: strings.Split rest sep.
Proof.
  induction seg as [|ch seg IH]; intros H.
  - rewrite append_Empty. simpl. now rewrite Ascii.eqb_refl.
  - rewrite append_String. simpl in H |- *.
    destruct (Ascii.eqb ch sep); [discriminate|].
    now rewrite IH.
Qed.

Lemma Split_whole (seg : string) (sep : ascii) :
  strings.Count seg sep = O -> strings.Split seg sep = [seg].
Proof.
  induction seg as [|ch seg IH]; simpl; intros H; [reflexivity|].
  destruct (Ascii.eqb ch sep); [discriminate|].
  now rewrite IH.
Qed.

(** [Split] is the only way to cut a string into segments free of the
    separator. *)
Lemma Split_unique (sep : ascii) (segs : list string) :
  segs <> [] ->
  Forall (fun seg => strings.Count seg sep = O) segs ->
  strings.Split (strings.Join segs (String sep EmptyString)) sep = segs.
Proof.
  unfold strings.Join.
  induction segs as [|seg segs IH]; [contradiction|]; intros _ F.
  inversion F as [|? ? Hseg Hsegs]; subst.
  destruct segs as [|seg' segs'].
  - now apply Split_whole.
  - rewrite concat_cons by discriminate.
    rewrite append_String, append_Empty, Split_segment by assumption.
    f_equal. now apply IH.
Qed.

(** ** sort.Slice under the comparison by name *)

Section SortFacts.

Context {Flag : Type}.
Variable GetName : Flag -> string.
Variable pdqsortLong :
  (option Flag -> option Flag -> outcome bool) ->
  list (option Flag) -> outcome (list (option Flag)).

#[local] Abbreviation nameLe := (nameLe GetName).
#[local] Abbreviation nameGe := (nameGe GetName).

Lemma nameLe_trans (a b c : Flag) : nameLe a b -> nameLe b c -> nameLe a c.
Proof. unfold nameLe. apply string_leb_trans. Qed.

Lemma StronglySorted_rev_names (l : list Flag) :
  StronglySorted nameGe l -> StronglySorted nameLe (rev l).
Proof.
  induction 1 as [|a l Hl IH Ha]; simpl; [constructor|].
  apply StronglySorted_app_2; [|exact IH|repeat constructor].
  intros x y Hx Hy. apply list_elem_of_In in Hx, Hy.
  destruct Hy as [<-|[]]. apply in_rev in Hx.
  rewrite Forall_forall in Ha. apply (Ha x). now apply list_elem_of_In.
Qed.

Lemma insertBack_names (x : Flag) (before : list Flag) :
  StronglySorted nameGe before ->
  exists r : list Flag,
    sort.insertBack (lessByName GetName) (Some x) (map Some before)
      = Returns (map Some r)
    /\ Permutation r (x :: before)
    /\ StronglySorted nameGe r.
Proof.
  induction 1 as [|y before Hs IH Hy]; simpl.
  - exists [x]. repeat split; auto. repeat constructor.
  - destruct (String.ltb (GetName x) (GetName y)) eqn:E.
    + destruct IH as (r & -> & P & S). simpl.
      exists (y :: r). repeat split.
      * rewrite P. apply perm_swap.
      * constructor; [exact S|].
        rewrite P. constructor; [|exact Hy].
        now apply string_ltb_leb.
    + exists (x :: y :: before). repeat split; auto.
      apply string_nltb_leb in E.
      constructor; [now constructor|].
      constructor; [exact E|].
      eapply Forall_impl; [exact Hy|].
      intros z Hz. exact (nameLe_trans _ _ _ Hz E).
Qed.

Lemma insertionSort_names (data before : list Flag) :
  StronglySorted nameGe before ->
  exists r : list Flag,
    sort.insertionSort (lessByName GetName) (map Some data) (map Some before)
      = Returns (map Some r)
    /\ Permutation r (before ++ data)
    /\ StronglySorted nameLe r.
Proof.
  revert before; induction data as [|x data IH]; intros before S; simpl.
  - exists (rev before). rewrite map_rev, app_nil_r. repeat split.
    + symmetry. apply Permutation_rev.
    + now apply StronglySorted_rev_names.
  - destruct (insertBack_names x before S) as (b' & -> & P & S'). simpl.
    destruct (IH b' S') as (r & -> & P' & S''). exists r. repeat split; auto.
    rewrite P', P. apply Permutation_middle.
Qed.

(** The comparison by name meets the requirements of package sort on
    descriptors that are all present. *)
Lemma lessByName_requirements (fl : list Flag) :
  sort.lessRequirements (lessByName GetName) (map Some fl).
Proof.
  assert (forall a, In a (map Some fl) -> exists x, a = Some x) as Pres.
  { intros a I. apply in_map_iff in I as (x & <- & _). now exists x. }
  split; [|split; [|split]].
  - intros a b Ia Ib. destruct (Pres a Ia) as [x ->], (Pres b Ib) as [y ->].
    simpl. eauto.
  - intros a Ia. destruct (Pres a Ia) as [x ->]. simpl. f_equal.
    unfold String.ltb. now rewrite string_compare_refl.
  - intros a b c Ia Ib Ic.
    destruct (Pres a Ia) as [x ->], (Pres b Ib) as [y ->], (Pres c Ic) as [z ->].
    simpl. intros [= H1] [= H2]. f_equal. unfold String.ltb in *.
    destruct (String.compare (GetName x) (GetName y)) eqn:E1; try discriminate.
    destruct (String.compare (GetName y) (GetName z)) eqn:E2; try discriminate.
    now rewrite (string_lt_trans _ _ _ E1 E2).
  - intros a b c Ia Ib Ic.
    destruct (Pres a Ia) as [x ->], (Pres b Ib) as [y ->], (Pres c Ic) as [z ->].
    simpl. intros [= H1] [= H2]. f_equal.
    apply string_nltb_leb in H1, H2.
    pose proof (string_leb_trans _ _ _ H2 H1) as H.
    unfold String.leb in H. unfold String.ltb.
    rewrite (String.compare_antisym (GetName x) (GetName z)).
    now destruct (String.compare (GetName z) (GetName x)).
Qed.

(** Sorted as package sort has it, by name, is names ascending. *)
Lemma isSorted_names (r : list Flag) :
  sort.isSorted (lessByName GetName) (map Some r) -> StronglySorted nameLe r.
Proof.
  intros S. apply Sorted.Sorted_StronglySorted.
  { intros a b c. apply nameLe_trans. }
  induction r as [|a r IH]; [constructor|].
  simpl in S. inversion S as [|? ? S' H]; subst.
  constructor; [now apply IH|].
  destruct r as [|b r]; [constructor|].
  simpl in H. inversion H as [|? ? H']; subst. constructor.
  simpl in H'. injection H' as H'. now apply string_nltb_leb.
Qed.

(** On descriptors that are all present, [sort.Slice] returns them
    rearranged, names ascending: by the insertion sort on a short slice, by
    the promise of package sort on a long one. *)
Lemma Slice_names (fl : list Flag) :
  ((sort.maxInsertion < length fl)%nat -> sort.SortsLong pdqsortLong) ->
  exists r : list Flag,
    sort.Slice (lessByName GetName) pdqsortLong (map Some fl)
    = Returns (map Some r)
    /\ Permutation r fl
    /\ StronglySorted nameLe r.
Proof.
  intros C. unfold sort.Slice. rewrite length_map.
  destruct (Nat.leb_spec (length fl) sort.maxInsertion) as [L|L].
  - destruct (insertionSort_names fl [] ltac:(constructor)) as (r & E & P & S).
    exists r. repeat split; auto.
  - destruct (C L (lessByName GetName) (map Some fl)) as (r & E & P & S).
    + now rewrite length_map.
    + apply lessByName_requirements.
    + destruct (Permutation_map_inv _ _ P) as (r' & -> & P').
      exists r'. split; [exact E|]. split; [now symmetry|].
      now apply isSorted_names.
Qed.

Lemma insertBack_present (x : Flag) (before : list Flag) :
  exists r : list Flag,
    sort.insertBack (lessByName GetName) (Some x) (map Some before)
      = Returns (map Some r)
    /\ r <> [].
Proof.
  induction before as [|y before IH]; simpl.
  - exists [x]. split; [reflexivity | discriminate].
  - destruct (String.ltb (GetName x) (GetName y)).
    + destruct IH as (r & -> & _). simpl.
      exists (y :: r). split; [reflexivity | discriminate].
    + exists (x :: y :: before). split; [reflexivity | discriminate].
Qed.

(** A nil element makes the comparison panic as soon as there is
    something to compare it with. *)
Lemma insertionSort_nil (data : list (option Flag)) (before : list Flag) :
  before <> [] -> In None data ->
  sort.insertionSort (lessByName GetName) data (map Some before) = Panics.
Proof.
  revert before; induction data as [|x data IH]; intros before N I;
    [destruct I|].
  destruct x as [x|]; simpl.
  - destruct I as [I|I]; [discriminate|].
    destruct (insertBack_present x before) as (r & -> & Nr). simpl.
    now apply IH.
  - destruct before as [|y before]; [contradiction|]. reflexivity.
Qed.

Lemma Slice_nil (x y : option Flag) (data : list (option Flag)) :
  (length (x :: y :: data) <= sort.maxInsertion)%nat ->
  In None (x :: y :: data) ->
  sort.Slice (lessByName GetName) pdqsortLong (x :: y :: data) = Panics.
Proof.
  intros L I. unfold sort.Slice.
  destruct (Nat.leb_spec (length (x :: y :: data)) sort.maxInsertion);
    [|lia].
  destruct x as [x|].
  - destruct I as [I|I]; [discriminate|].
    change (sort.insertionSort (lessByName GetName) (Some x :: y :: data) [])
      with (sort.insertionSort (lessByName GetName) (y :: data) (map Some [x])).
    apply insertionSort_nil; [discriminate | exact I].
  - simpl. now destruct y.
Qed.

End SortFacts.

(** ** Insertion sort keeps the promise of package sort *)

Section InsertionSortFacts.

Context {A : Type}.
Variable less : A -> A -> outcome bool.
Variable X : list A.

#[local] Abbreviation notLess := (sort.notLess less).

Lemma less_asym (a b : A) :
  sort.lessRequirements less X ->
  In a X -> In b X -> less a b = Returns true -> notLess b a.
Proof.
  intros (Tot & Irr & Tr & _) Ia Ib H.
  destruct (Tot b a Ib Ia) as [[] E]; [|exact E].
  pose proof (Tr a b a Ia Ib Ia H E) as T.
  rewrite (Irr a Ia) in T. discriminate.
Qed.

Lemma insertBack_sorted (x : A) (before : list A) :
  sort.lessRequirements less X ->
  In x X -> incl before X ->
  StronglySorted notLess before ->
  exists r : list A,
    sort.insertBack less x before = Returns r
    /\ Permutation r (x :: before)
    /\ StronglySorted notLess r.
Proof.
  intros Req. pose proof Req as (Tot & Irr & Tr & NTr). intros Ix.
  induction before as [|y before IH]; intros Inc S; simpl.
  - exists [x]. repeat split; auto. repeat constructor.
  - assert (In y X) as Iy by (apply Inc; now left).
    assert (incl before X) as Inc' by (intros z Hz; apply Inc; now right).
    apply StronglySorted_inv in S as [S Hy].
    destruct (Tot x y Ix Iy) as [[] E]; rewrite E; simpl.
    + destruct (IH Inc' S) as (r & -> & P & S'). simpl.
      exists (y :: r). repeat split.
      * rewrite P. apply perm_swap.
      * constructor; [exact S'|].
        rewrite P. constructor; [|exact Hy].
        now apply less_asym.
    + exists (x :: y :: before). repeat split; auto.
      constructor; [now constructor|].
      constructor; [exact E|].
      rewrite Forall_forall in Hy |- *. intros z Hz.
      apply (NTr x y z); trivial.
      * apply Inc'. now apply list_elem_of_In.
      * now apply Hy.
Qed.

Lemma StronglySorted_rev_notLess (l : list A) :
  StronglySorted notLess l -> StronglySorted (fun a b => notLess b a) (rev l).
Proof.
  induction 1 as [|a l Hl IH Ha]; simpl; [constructor|].
  apply StronglySorted_app_2; [|exact IH|repeat constructor].
  intros x y Hx Hy. apply list_elem_of_In in Hx, Hy.
  destruct Hy as [<-|[]]. apply in_rev in Hx.
  rewrite Forall_forall in Ha. apply (Ha x). now apply list_elem_of_In.
Qed.

Lemma insertionSort_sorted (data before : list A) :
  sort.lessRequirements less X ->
  incl data X -> incl before X ->
  StronglySorted notLess before ->
  exists r : list A,
    sort.insertionSort less data before = Returns r
    /\ Permutation r (before ++ data)
    /\ sort.isSorted less r.
Proof.
  intros Req.
  revert before; induction data as [|x data IH]; intros before Id Ib S; simpl.
  - exists (rev before). rewrite app_nil_r. repeat split.
    + symmetry. apply Permutation_rev.
    + apply StronglySorted_Sorted. now apply StronglySorted_rev_notLess.
  - assert (In x X) as Ix by (apply Id; now left).
    assert (incl data X) as Id' by (intros z Hz; apply Id; now right).
    destruct (insertBack_sorted x before Req Ix Ib S) as (b' & -> & P & S').
    simpl.
    destruct (IH b' Id') as (r & -> & P' & S''); trivial.
    + intros z Hz. apply (Permutation_in _ P) in Hz as [<-|Hz]; auto.
    + exists r. repeat split; auto.
      rewrite P', P. apply Permutation_middle.
Qed.

End InsertionSortFacts.

Lemma insertionSort_SortsLong (A : Type) :
  sort.SortsLong (fun less (x : list A) => sort.insertionSort less x []).
Proof.
  intros less x _ Req.
  destruct (insertionSort_sorted less x x [] Req (incl_refl x)
              ltac:(intros z []) ltac:(constructor)) as (r & E & P & S).
  exists r. auto.
Qed.

(** ** strconv *)

Lemma to_int64_idem (z : Z) : strconv.to_int64 (strconv.to_int64 z) = strconv.to_int64 z.
Proof.
  unfold strconv.to_int64.
  replace ((z + 2 ^ 63) mod 2 ^ 64 - 2 ^ 63 + 2 ^ 63) with ((z + 2 ^ 63) mod 2 ^ 64) by lia.
  now rewrite Z.mod_mod by lia.
Qed.

Lemma to_int64_range (z : Z) : - 2 ^ 63 <= strconv.to_int64 z < 2 ^ 63.
Proof.
  unfold strconv.to_int64.
  pose proof (Z.mod_pos_bound (z + 2 ^ 63) (2 ^ 64) ltac:(lia)). lia.
Qed.

(** A value [ParseInt] returns without error is an [int64]. *)
Lemma ParseInt_int64 (s : string) (base bitSize v : Z) :
  strconv.ParseInt s base bitSize = (v, None) -> strconv.to_int64 v = v.
Proof.
  unfold strconv.ParseInt. destruct s as [|c0 rest]; [discriminate|].
  destruct (if byte_of c0 =? 43 then (false, rest)
            else if byte_of c0 =? 45 then (true, rest)
            else (false, String c0 rest)) as [neg s'].
  destruct (strconv.ParseUint s' base bitSize) as [un [[]|]];
    try discriminate;
    repeat match goal with
           | |- context [if ?b then _ else _] => destruct b
           end;
    intros [= <-]; try discriminate; apply to_int64_idem.
Qed.

Lemma Atoi_not_empty (s : string) (n : Z) :
  strconv.Atoi s = (n, None) -> s <> EmptyString.
Proof. intros H ->. discriminate. Qed.

(** [Atoi] reads back the decimal representation of each of 0 .. 15. *)
Lemma Atoi_Itoa_small (n : Z) :
  0 <= n <= 15 -> strconv.Atoi (strconv.Itoa n) = (n, None).
Proof.
  intros H.
  assert (Forall (fun k => strconv.Atoi (strconv.Itoa k) = (k, None))
                 (map Z.of_nat (seq 0 16))) as F
      by (cbn [seq map]; repeat constructor).
  rewrite Forall_forall in F. apply F.
  apply list_elem_of_In, in_map_iff. exists (Z.to_nat n).
  split; [lia | apply in_seq; lia].
Qed.

Lemma eqb_empty_false (s : string) :
  s <> EmptyString -> String.eqb s EmptyString = false.
Proof. intros H. now apply String.eqb_neq. Qed.

(** ** The download configuration *)

Section ConfigurationFacts.

Variable JFrogHelpUrl : string.
Variable cliutils_GetThreadsCount : string -> Z * option error.

#[local] Abbreviation getMinSplit := (getMinSplit JFrogHelpUrl).
#[local] Abbreviation getSplitCount := (getSplitCount JFrogHelpUrl).
#[local] Abbreviation GetThreadsCount := (GetThreadsCount cliutils_GetThreadsCount).
#[local] Abbreviation CreateDownloadConfiguration :=
  (CreateDownloadConfiguration JFrogHelpUrl cliutils_GetThreadsCount).

#[local] Abbreviation lastViolation := (lastViolation JFrogHelpUrl).

Lemma getSplitCount_supplied (c : Context) (defaultSplitCount maxSplitCount : Z) :
  GetStringFlagValue c "split-count" <> EmptyString ->
  getSplitCount c defaultSplitCount maxSplitCount
  = (fst (strconv.Atoi (GetStringFlagValue c "split-count")),
     lastViolation (fst (strconv.Atoi (GetStringFlagValue c "split-count")))
                   (snd (strconv.Atoi (GetStringFlagValue c "split-count")))
                   maxSplitCount).
Proof.
  intros H. unfold getSplitCount, lastViolation.
  rewrite (eqb_empty_false _ H). cbn [negb].
  destruct (strconv.Atoi (GetStringFlagValue c "split-count")) as [v [e|]];
    cbn [fst snd NumError_of];
    destruct (v <? 0); destruct (v >? maxSplitCount); reflexivity.
Qed.

Lemma getSplitCount_empty (c : Context) (defaultSplitCount maxSplitCount : Z) :
  GetStringFlagValue c "split-count" = EmptyString ->
  getSplitCount c defaultSplitCount maxSplitCount = (defaultSplitCount, None).
Proof. intros H. unfold getSplitCount. now rewrite H. Qed.

Lemma getMinSplit_empty (c : Context) (defaultMinSplit : Z) :
  GetStringFlagValue c minSplit = EmptyString ->
  getMinSplit c defaultMinSplit = (defaultMinSplit, None).
Proof. intros H. unfold getMinSplit. now rewrite H. Qed.

Lemma getMinSplit_supplied (c : Context) (defaultMinSplit : Z) :
  GetStringFlagValue c minSplit <> EmptyString ->
  getMinSplit c defaultMinSplit
  = match strconv.ParseInt (GetStringFlagValue c minSplit) 10 64 with
    | (_, Some _) => (0, Some (minSplitNotNumeric JFrogHelpUrl))
    | (v, None) => (v, None)
    end.
Proof.
  intros H. unfold getMinSplit.
  rewrite (eqb_empty_false _ H). cbn [negb].
  now destruct (strconv.ParseInt (GetStringFlagValue c minSplit) 10 64) as [v [e|]].
Qed.

(** [CreateDownloadConfiguration] by the results of its three calls. *)
Lemma CreateDownloadConfiguration_steps (c : Context) :
  CreateDownloadConfiguration c
  = match getMinSplit c DownloadMinSplitKb with
    | (_, Some e) => (None, Some e)
    | (m, None) =>
        match getSplitCount c DownloadSplitCount DownloadMaxSplitCount with
        | (_, Some e) => (None, Some e)
        | (k, None) =>
            match GetThreadsCount c with
            | (_, Some e) => (None, Some e)
            | (t, None) =>
                (Some {| Threads := t; SplitCount := k; MinSplitSize := m;
                         Symlink := true;
                         SkipChecksum := GetBoolFlagValue c "skip-checksum" |},
                 None)
            end
        end
    end.
Proof.
  unfold CreateDownloadConfiguration.
  destruct (getMinSplit c DownloadMinSplitKb) as [m [e|]]; [reflexivity|].
  destruct (getSplitCount c DownloadSplitCount DownloadMaxSplitCount) as [k [e|]];
    [reflexivity|].
  destruct (GetThreadsCount c) as [t [e|]]; reflexivity.
Qed.

Lemma configuration_SplitCount (c : Context) (k : Z) :
  getSplitCount c DownloadSplitCount DownloadMaxSplitCount = (k, None) ->
  (forall cfg err,
      CreateDownloadConfiguration c = (Some cfg, err) -> SplitCount cfg = k)
  /\ (forall m t,
         getMinSplit c DownloadMinSplitKb = (m, None) ->
         GetThreadsCount c = (t, None) ->
         exists cfg,
           CreateDownloadConfiguration c = (Some cfg, None)
           /\ SplitCount cfg = k).
Proof.
  intros Hk. rewrite CreateDownloadConfiguration_steps, Hk. split.
  - intros cfg err.
    destruct (getMinSplit c DownloadMinSplitKb) as [m [e|]]; [discriminate|].
    destruct (GetThreadsCount c) as [t [e|]]; [discriminate|].
    now intros [= <- <-].
  - intros m t -> ->. eexists. split; reflexivity.
Qed.

(** C1: a split-count value that is the decimal representation of, or
    parses to, an integer n with 0 <= n <= 15 makes getSplitCount return n
    without error, and n is the split count of the configuration
    CreateDownloadConfiguration returns (which it does return as soon as
    min-split and threads pass); a value that parses to n > 15 or n < 0 is
    a validation error of both; an empty value gives the default 3, from
    getSplitCount and in the configuration returned, which is returned as
    soon as min-split and threads pass. *)
Theorem split_count_validated (c : Context) :
  (forall n : Z,
      0 <= n <= 15 ->
      GetStringFlagValue c "split-count" = strconv.Itoa n
      \/ strconv.Atoi (GetStringFlagValue c "split-count") = (n, None) ->
      getSplitCount c DownloadSplitCount DownloadMaxSplitCount = (n, None)
      /\ (forall cfg err,
             CreateDownloadConfiguration c = (Some cfg, err) ->
             SplitCount cfg = n)
      /\ (forall m t,
             getMinSplit c DownloadMinSplitKb = (m, None) ->
             GetThreadsCount c = (t, None) ->
             exists cfg,
               CreateDownloadConfiguration c = (Some cfg, None)
               /\ SplitCount cfg = n))
  /\ (forall n : Z,
         strconv.Atoi (GetStringFlagValue c "split-count") = (n, None) ->
         15 < n \/ n < 0 ->
         getSplitCount c DownloadSplitCount DownloadMaxSplitCount
         = (n, Some (if n <? 0 then splitCountNegative
                     else splitCountAboveMax 15))
         /\ exists e, CreateDownloadConfiguration c = (None, Some e))
  /\ (GetStringFlagValue c "split-count" = EmptyString ->
         getSplitCount c DownloadSplitCount DownloadMaxSplitCount = (3, None)
         /\ (forall cfg err,
                CreateDownloadConfiguration c = (Some cfg, err) ->
                SplitCount cfg = 3)
         /\ (forall m t,
                getMinSplit c DownloadMinSplitKb = (m, None) ->
                GetThreadsCount c = (t, None) ->
                exists cfg,
                  CreateDownloadConfiguration c = (Some cfg, None)
                  /\ SplitCount cfg = 3)).
Proof.
  split; [|split].
  - intros n Hn Hs.
    assert (strconv.Atoi (GetStringFlagValue c "split-count") = (n, None)) as Ha.
    { destruct Hs as [->|Hs]; [now apply Atoi_Itoa_small | exact Hs]. }
    assert (getSplitCount c DownloadSplitCount DownloadMaxSplitCount = (n, None)) as Hk.
    { rewrite getSplitCount_supplied by (now apply (Atoi_not_empty _ n)).
      rewrite Ha. cbn [fst snd]. unfold lastViolation, DownloadMaxSplitCount.
      destruct (Z.ltb_spec n 0); [lia|].
      destruct (Z.gtb_spec n 15); [lia|]. reflexivity. }
    split; [exact Hk | now apply configuration_SplitCount].
  - intros n Ha Hn.
    assert (getSplitCount c DownloadSplitCount DownloadMaxSplitCount
            = (n, Some (if n <? 0 then splitCountNegative
                        else splitCountAboveMax 15))) as Hk.
    { rewrite getSplitCount_supplied by (now apply (Atoi_not_empty _ n)).
      rewrite Ha. cbn [fst snd]. unfold lastViolation, DownloadMaxSplitCount.
      destruct (Z.ltb_spec n 0); [reflexivity|].
      destruct (Z.gtb_spec n 15); [reflexivity|lia]. }
    split; [exact Hk|].
    rewrite CreateDownloadConfiguration_steps, Hk.
    destruct (getMinSplit c DownloadMinSplitKb) as [m [e|]]; eexists; reflexivity.
  - intros Hs.
    pose proof (getSplitCount_empty c DownloadSplitCount DownloadMaxSplitCount Hs) as Hk.
    split; [exact Hk|].
    now apply configuration_SplitCount.
Qed.

(** C2: with an empty min-split value the minimum split size is 5120, in
    the result of getMinSplit and in the configuration returned; with a
    value that is not empty and that ParseInt rejects in base 10, the error
    is a validation error whose text contains the documentation URL, and
    CreateDownloadConfiguration returns it with no configuration. *)
Theorem min_split_default_or_error (c : Context) :
  (GetStringFlagValue c minSplit = EmptyString ->
   getMinSplit c DownloadMinSplitKb = (5120, None)
   /\ (forall cfg err,
          CreateDownloadConfiguration c = (Some cfg, err) ->
          MinSplitSize cfg = 5120)
   /\ (forall k t,
          getSplitCount c DownloadSplitCount DownloadMaxSplitCount = (k, None) ->
          GetThreadsCount c = (t, None) ->
          exists cfg,
            CreateDownloadConfiguration c = (Some cfg, None)
            /\ MinSplitSize cfg = 5120))
  /\ (GetStringFlagValue c minSplit <> EmptyString ->
      forall v e,
        strconv.ParseInt (GetStringFlagValue c minSplit) 10 64 = (v, Some e) ->
        getMinSplit c DownloadMinSplitKb
        = (0, Some (minSplitNotNumeric JFrogHelpUrl))
        /\ CreateDownloadConfiguration c
           = (None, Some (minSplitNotNumeric JFrogHelpUrl)))
  /\ (exists text,
         minSplitNotNumeric JFrogHelpUrl = errors_New text
         /\ strings.Contains text (JFrogHelpUrl ++ "jfrog-cli")
         /\ strings.Contains text JFrogHelpUrl).
Proof.
  split; [|split].
  - intros Hs.
    pose proof (getMinSplit_empty c DownloadMinSplitKb Hs) as Hm.
    split; [exact Hm|].
    rewrite CreateDownloadConfiguration_steps, Hm. split.
    + intros cfg err.
      destruct (getSplitCount c DownloadSplitCount DownloadMaxSplitCount)
        as [k [e|]]; [discriminate|].
      destruct (GetThreadsCount c) as [t [e|]]; [discriminate|].
      now intros [= <- <-].
    + intros k t -> ->. eexists. split; reflexivity.
  - intros Hs v e Hp.
    assert (getMinSplit c DownloadMinSplitKb
            = (0, Some (minSplitNotNumeric JFrogHelpUrl))) as Hm.
    { rewrite getMinSplit_supplied by exact Hs. now rewrite Hp. }
    split; [exact Hm|].
    now rewrite CreateDownloadConfiguration_steps, Hm.
  - eexists. split; [reflexivity|]. unfold GetDocumentationMessage. split.
    + exists "The '--min-split' option should have a numeric value. You can read the documentation at ", EmptyString.
      rewrite append_Empty_r. reflexivity.
    + exists "The '--min-split' option should have a numeric value. You can read the documentation at ", "jfrog-cli".
      reflexivity.
Qed.

(** C3: on a split-count value that is not empty, getSplitCount returns
    the value Atoi gives and runs its three checks one after the other, so
    the error it returns is that of the last check that finds a violation:
    negative, else above the maximum, else not numeric.  A negative value
    always gives the negative-value error, never the maximum error,
    whatever the maximum and although the parse may have failed before. *)
Theorem split_count_last_violation (c : Context)
        (defaultSplitCount maxSplitCount : Z) :
  GetStringFlagValue c "split-count" <> EmptyString ->
  forall (v : Z) (perr : option strconv.Err),
    strconv.Atoi (GetStringFlagValue c "split-count") = (v, perr) ->
    getSplitCount c defaultSplitCount maxSplitCount
    = (v, lastViolation v perr maxSplitCount)
    /\ (v < 0 ->
        snd (getSplitCount c defaultSplitCount maxSplitCount)
        = Some splitCountNegative)
    /\ (0 <= v -> maxSplitCount < v ->
        snd (getSplitCount c defaultSplitCount maxSplitCount)
        = Some (splitCountAboveMax maxSplitCount))
    /\ (0 <= v <= maxSplitCount -> perr <> None ->
        snd (getSplitCount c defaultSplitCount maxSplitCount)
        = Some (splitCountNotNumeric JFrogHelpUrl))
    /\ (0 <= v <= maxSplitCount -> perr = None ->
        snd (getSplitCount c defaultSplitCount maxSplitCount) = None).
Proof.
  intros Hs v perr Ha.
  rewrite getSplitCount_supplied by exact Hs.
  rewrite Ha. cbn [fst snd].
  split; [reflexivity|].
  repeat split; intros; unfold lastViolation.
  - destruct (Z.ltb_spec v 0); [reflexivity|lia].
  - destruct (Z.ltb_spec v 0); [lia|].
    destruct (Z.gtb_spec v maxSplitCount); [reflexivity|lia].
  - destruct (Z.ltb_spec v 0); [lia|].
    destruct (Z.gtb_spec v maxSplitCount); [lia|].
    destruct perr; [reflexivity|contradiction].
  - destruct (Z.ltb_spec v 0); [lia|].
    destruct (Z.gtb_spec v maxSplitCount); [lia|].
    now subst perr.
Qed.

(** C9: getMinSplit and getSplitCount look at the flag's string value only,
    never at whether the flag is set: a flag explicitly set to the empty
    string gives the default (5120, 3) and no error, and two contexts with
    the same string value give the same result. *)
Theorem empty_value_is_default (c : Context) :
  (IsFlagSet c minSplit = true ->
   GetStringFlagValue c minSplit = EmptyString ->
   getMinSplit c DownloadMinSplitKb = (5120, None))
  /\ (IsFlagSet c "split-count" = true ->
      GetStringFlagValue c "split-count" = EmptyString ->
      getSplitCount c DownloadSplitCount DownloadMaxSplitCount = (3, None))
  /\ (forall (c' : Context) (d : Z),
         GetStringFlagValue c' minSplit = GetStringFlagValue c minSplit ->
         getMinSplit c' d = getMinSplit c d)
  /\ (forall (c' : Context) (d m : Z),
         GetStringFlagValue c' "split-count" = GetStringFlagValue c "split-count" ->
         getSplitCount c' d m = getSplitCount c d m).
Proof.
  repeat split.
  - intros _ Hs. now apply getMinSplit_empty.
  - intros _ Hs. now apply getSplitCount_empty.
  - intros c' d H. unfold getMinSplit. now rewrite H.
  - intros c' d m H. unfold getSplitCount. now rewrite H.
Qed.

(** C10: whenever CreateDownloadConfiguration returns an error, it returns
    no configuration; the error is that of min-split, of split-count or of
    the thread count, each of which ends the call that way. *)
Theorem error_without_configuration (c : Context) :
  (forall cfg e,
      CreateDownloadConfiguration c = (cfg, Some e) -> cfg = None)
  /\ (forall e,
         snd (getMinSplit c DownloadMinSplitKb) = Some e ->
         CreateDownloadConfiguration c = (None, Some e))
  /\ (forall e,
         snd (getMinSplit c DownloadMinSplitKb) = None ->
         snd (getSplitCount c DownloadSplitCount DownloadMaxSplitCount) = Some e ->
         CreateDownloadConfiguration c = (None, Some e))
  /\ (forall e,
         snd (getMinSplit c DownloadMinSplitKb) = None ->
         snd (getSplitCount c DownloadSplitCount DownloadMaxSplitCount) = None ->
         snd (GetThreadsCount c) = Some e ->
         CreateDownloadConfiguration c = (None, Some e))
  /\ (forall cfg,
         CreateDownloadConfiguration c = (Some cfg, None) <->
         snd (getMinSplit c DownloadMinSplitKb) = None
         /\ snd (getSplitCount c DownloadSplitCount DownloadMaxSplitCount) = None
         /\ snd (GetThreadsCount c) = None
         /\ cfg = {| Threads := fst (GetThreadsCount c);
                     SplitCount := fst (getSplitCount c DownloadSplitCount
                                                      DownloadMaxSplitCount);
                     MinSplitSize := fst (getMinSplit c DownloadMinSplitKb);
                     Symlink := true;
                     SkipChecksum := GetBoolFlagValue c "skip-checksum" |}).
Proof.
  rewrite CreateDownloadConfiguration_steps.
  destruct (getMinSplit c DownloadMinSplitKb) as [m [e1|]];
    destruct (getSplitCount c DownloadSplitCount DownloadMaxSplitCount)
      as [k [e2|]];
    destruct (GetThreadsCount c) as [t [e3|]]; cbn [fst snd];
    repeat split; try congruence;
    try (intros (? & ? & ? & ?); congruence).
Qed.

End ConfigurationFacts.

(** ** Flags read as they are *)

(** C7: GetStringsArrFlagValue returns the empty sequence for a flag that
    is not set; for a flag that is set it returns the segments of the string
    value between the semicolons, in order and with the empty ones kept:
    joined by ";" they give the value back, none holds a semicolon, there is
    one more of them than semicolons, and no other sequence does this.  On
    "a;b;c" the result is ["a","b","c"]. *)
Theorem strings_array_of_flag (c : Context) (flagName : string) :
  (IsFlagSet c flagName = false -> GetStringsArrFlagValue c flagName = [])
  /\ (IsFlagSet c flagName = true ->
      GetStringsArrFlagValue c flagName
      = strings.Split (GetStringFlagValue c flagName) semicolon
      /\ strings.Join (GetStringsArrFlagValue c flagName) ";"
         = GetStringFlagValue c flagName
      /\ Forall (fun seg => strings.Count seg semicolon = O)
                (GetStringsArrFlagValue c flagName)
      /\ length (GetStringsArrFlagValue c flagName)
         = S (strings.Count (GetStringFlagValue c flagName) semicolon)
      /\ (forall segs : list string,
             segs <> [] ->
             Forall (fun seg => strings.Count seg semicolon = O) segs ->
             strings.Join segs ";" = GetStringFlagValue c flagName ->
             GetStringsArrFlagValue c flagName = segs)
      /\ (GetStringFlagValue c flagName = "a;b;c" ->
          GetStringsArrFlagValue c flagName = ["a"; "b"; "c"])).
Proof.
  unfold GetStringsArrFlagValue. split; intros ->; [reflexivity|].
  cbn [app]. repeat split.
  - apply Join_Split.
  - apply Split_segments.
  - apply length_Split.
  - intros segs N F <-. now apply Split_unique.
  - intros ->. reflexivity.
Qed.

(** C8: OverrideIntIfSet leaves the integer as it is when the flag is not
    set, and also when the flag is set and ParseInt (base 0, 64 bits)
    rejects its string value; it stores the parsed value when the flag is
    set and the value parses, and the integer changes in that case only. *)
Theorem override_int_if_set (field : Z) (c : Context) (fieldName : string) :
  (IsFlagSet c fieldName = false -> OverrideIntIfSet field c fieldName = field)
  /\ (IsFlagSet c fieldName = true ->
      forall v e,
        strconv.ParseInt (GetStringFlagValue c fieldName) 0 64 = (v, Some e) ->
        OverrideIntIfSet field c fieldName = field)
  /\ (IsFlagSet c fieldName = true ->
      forall v,
        strconv.ParseInt (GetStringFlagValue c fieldName) 0 64 = (v, None) ->
        OverrideIntIfSet field c fieldName = v)
  /\ (OverrideIntIfSet field c fieldName <> field ->
      IsFlagSet c fieldName = true
      /\ strconv.ParseInt (GetStringFlagValue c fieldName) 0 64
         = (OverrideIntIfSet field c fieldName, None)).
Proof.
  unfold OverrideIntIfSet. repeat split.
  - now intros ->.
  - intros -> v e ->. reflexivity.
  - intros -> v H. rewrite H. now apply ParseInt_int64 in H.
  - destruct (IsFlagSet c fieldName); [reflexivity|contradiction].
  - destruct (IsFlagSet c fieldName); [|contradiction].
    destruct (strconv.ParseInt (GetStringFlagValue c fieldName) 0 64)
      as [v [e|]] eqn:E; [contradiction|].
    now rewrite (ParseInt_int64 _ _ _ _ E).
Qed.

(** ** The environment *)

Section EnvironmentFacts.

Variable CI : string.
Variable Project : string.

Lemma getCiValue_true (env : gmap string string) :
  getCiValue CI env = true <->
  exists v, env !! CI = Some v /\ strconv.ParseBool v = (true, None).
Proof.
  unfold getCiValue, GetBoolEnvValue, os_Getenv.
  destruct (env !! CI) as [v|]; unfold default, id.
  - destruct (String.eqb_spec v EmptyString) as [->|N].
    + split; [discriminate|]. intros (v & [= <-] & H). discriminate.
    + destruct (strconv.ParseBool v) as [b [e|]] eqn:E; cbn.
      * split; [discriminate|]. intros (w & [= <-] & H). congruence.
      * split.
        -- intros ->. now exists v.
        -- intros (w & [= <-] & H). congruence.
  - cbn. split; [discriminate|]. intros (v & H & _). discriminate.
Qed.

(** C4: when the quiet flag is set, GetQuietValue is its boolean value,
    whatever the environment holds; when it is not set, GetQuietValue is
    true exactly when the CI variable is set to a value that ParseBool
    reads as true, and false when the variable is not set or does not
    parse.  The result is a boolean: there is no error to return. *)
Theorem quiet_value (c : Context) (env : gmap string string) :
  (IsFlagSet c "quiet" = true ->
   GetQuietValue CI c env = GetBoolFlagValue c "quiet")
  /\ (IsFlagSet c "quiet" = false ->
      (GetQuietValue CI c env = true <->
       exists v, env !! CI = Some v /\ strconv.ParseBool v = (true, None))
      /\ (env !! CI = None -> GetQuietValue CI c env = false)
      /\ (forall v e,
             env !! CI = Some v -> strconv.ParseBool v = (false, Some e) ->
             GetQuietValue CI c env = false)
      /\ (env !! CI = Some "true" -> GetQuietValue CI c env = true)).
Proof.
  unfold GetQuietValue. split; intros ->; [reflexivity|].
  split; [apply getCiValue_true|].
  repeat split.
  - intros H. apply not_true_is_false. rewrite getCiValue_true.
    intros (v & Hv & _). congruence.
  - intros v e Hv Hp. apply not_true_is_false. rewrite getCiValue_true.
    intros (w & Hw & Hq). congruence.
  - intros H. apply getCiValue_true. now exists "true".
Qed.

(** C5: GetProject is the value of the project flag when that is not
    empty, whatever the environment holds; when it is empty, GetProject is
    the value of the project environment variable, and the empty string
    when the variable is not set. *)
Theorem project_from_flag_or_environment (c : Context)
        (env : gmap string string) :
  (GetStringFlagValue c "project" <> EmptyString ->
   GetProject Project c env = GetStringFlagValue c "project")
  /\ (GetStringFlagValue c "project" = EmptyString ->
      (forall v, env !! Project = Some v -> GetProject Project c env = v)
      /\ (env !! Project = None -> GetProject Project c env = EmptyString)).
Proof.
  unfold GetProject, getOrDefaultEnv, os_Getenv. split.
  - intros H. now rewrite (eqb_empty_false _ H).
  - intros ->. cbn. split; [intros v ->|intros ->]; reflexivity.
Qed.

End EnvironmentFacts.

(** ** The flags of a command *)

Section CommandFlagsFacts.

Context {Flag : Type}.
Variable GetName : Flag -> string.
Variable pdqsortLong :
  (option Flag -> option Flag -> outcome bool) ->
  list (option Flag) -> outcome (list (option Flag)).

Lemma lookupFlags_present (keys : list string) (descs : list Flag)
      (flagsMap : gmap string (option Flag)) :
  Forall2 (fun key d => flagsMap !! key = Some (Some d)) keys descs ->
  lookupFlags keys flagsMap = map Some descs.
Proof.
  induction 1 as [|key d keys descs H _ IH]; [reflexivity|].
  unfold lookupFlags in *. simpl. now rewrite H, IH.
Qed.

(** Two names or more, and no more than the insertion sort takes, one of
    them without descriptor: the comparison is called on a nil [Flag] and
    panics. *)
Lemma buildAndSortFlags_missing (keys : list string)
      (flagsMap : gmap string (option Flag)) (key : string) :
  (2 <= length keys <= sort.maxInsertion)%nat ->
  In key keys ->
  default None (flagsMap !! key) = None ->
  buildAndSortFlags GetName pdqsortLong keys flagsMap = Panics.
Proof.
  intros L I H. unfold buildAndSortFlags.
  assert (In None (lookupFlags keys flagsMap)) as N.
  { unfold lookupFlags. apply in_map_iff. now exists key. }
  assert (length (lookupFlags keys flagsMap) <= sort.maxInsertion)%nat as L'
      by (unfold lookupFlags; rewrite length_map; lia).
  destruct keys as [|k1 [|k2 keys]]; simpl in L; try lia.
  now apply Slice_nil.
Qed.


End CommandFlagsFacts.

(** * The theorems at concrete inputs *)

Example Atoi_values :
  strconv.Atoi "15" = (15, None)
  /\ strconv.Atoi "+7" = (7, None)
  /\ strconv.Atoi "-1" = (-1, None)
  /\ strconv.Atoi "abc" = (0, Some strconv.ErrSyntax)
  /\ strconv.Atoi "1_0" = (0, Some strconv.ErrSyntax)
  /\ strconv.Atoi "99999999999999999999"
     = (9223372036854775807, Some strconv.ErrRange)
  /\ strconv.Atoi "-99999999999999999999"
     = (-9223372036854775808, Some strconv.ErrRange).
Proof. repeat split; reflexivity. Qed.

Example ParseInt_values :
  strconv.ParseInt "0x1F" 0 64 = (31, None)
  /\ strconv.ParseInt "1_000" 0 64 = (1000, None)
  /\ strconv.ParseInt "017" 0 64 = (15, None)
  /\ strconv.ParseInt "-0b101" 0 64 = (-5, None)
  /\ strconv.ParseInt "0x" 0 64 = (0, Some strconv.ErrSyntax)
  /\ strconv.ParseInt "1__0" 0 64 = (0, Some strconv.ErrSyntax)
  /\ strconv.ParseInt "12a" 10 64 = (0, Some strconv.ErrSyntax).
Proof. repeat split; reflexivity. Qed.

Example GetCommandFlags_build :
  GetCommandFlags Example.Name Example.longSort "build"
    Example.commandToFlags Example.flagsMap
  = ([], Returns [Some Example.quietFlag; Some Example.threadsFlag]).
Proof. reflexivity. Qed.

Lemma split_count_validated_witness :
  (getSplitCount Example.JFrogHelpUrl
     (Example.flagsContext {[ "split-count" := "7" ]} ∅)
     DownloadSplitCount DownloadMaxSplitCount = (7, None)
   /\ exists cfg,
       CreateDownloadConfiguration Example.JFrogHelpUrl Example.GetThreadsCount
         (Example.flagsContext {[ "split-count" := "7" ]} ∅) = (Some cfg, None)
       /\ SplitCount cfg = 7)
  /\ (getSplitCount Example.JFrogHelpUrl
        (Example.flagsContext {[ "split-count" := "16" ]} ∅)
        DownloadSplitCount DownloadMaxSplitCount
      = (16, Some (splitCountAboveMax 15)))
  /\ (getSplitCount Example.JFrogHelpUrl
        (Example.flagsContext {[ "split-count" := "-1" ]} ∅)
        DownloadSplitCount DownloadMaxSplitCount
      = (-1, Some splitCountNegative))
  /\ (getSplitCount Example.JFrogHelpUrl (Example.flagsContext ∅ ∅)
        DownloadSplitCount DownloadMaxSplitCount = (3, None)
      /\ exists cfg,
          CreateDownloadConfiguration Example.JFrogHelpUrl
            Example.GetThreadsCount (Example.flagsContext ∅ ∅)
          = (Some cfg, None)
          /\ SplitCount cfg = 3).
Proof.
  split; [|split; [|split]].
  - pose proof (proj1 (split_count_validated Example.JFrogHelpUrl
                         Example.GetThreadsCount
                         (Example.flagsContext {[ "split-count" := "7" ]} ∅))
                      7) as H.
    assert (0 <= 7 <= 15) as R by lia. specialize (H R). clear R.
    assert (GetStringFlagValue
              (Example.flagsContext {[ "split-count" := "7" ]} ∅) "split-count"
            = strconv.Itoa 7) as V by (vm_compute; reflexivity).
    specialize (H (or_introl V)). clear V.
    destruct H as (H & _ & K). split; [exact H|].
    apply (K 5120 3); vm_compute; reflexivity.
  - pose proof (proj1 (proj2 (split_count_validated Example.JFrogHelpUrl
                                Example.GetThreadsCount
                                (Example.flagsContext {[ "split-count" := "16" ]} ∅)))
                      16) as H.
    assert (strconv.Atoi
              (GetStringFlagValue
                 (Example.flagsContext {[ "split-count" := "16" ]} ∅)
                 "split-count") = (16, None)) as V by (vm_compute; reflexivity).
    specialize (H V). clear V.
    assert (15 < 16 \/ 16 < 0) as R by (left; lia). specialize (H R). clear R.
    exact (proj1 H).
  - pose proof (proj1 (proj2 (split_count_validated Example.JFrogHelpUrl
                                Example.GetThreadsCount
                                (Example.flagsContext {[ "split-count" := "-1" ]} ∅)))
                      (-1)) as H.
    assert (strconv.Atoi
              (GetStringFlagValue
                 (Example.flagsContext {[ "split-count" := "-1" ]} ∅)
                 "split-count") = (-1, None)) as V by (vm_compute; reflexivity).
    specialize (H V). clear V.
    assert (15 < -1 \/ -1 < 0) as R by (right; lia). specialize (H R). clear R.
    exact (proj1 H).
  - pose proof (proj2 (proj2 (split_count_validated Example.JFrogHelpUrl
                                Example.GetThreadsCount
                                (Example.flagsContext ∅ ∅)))) as H.
    assert (GetStringFlagValue (Example.flagsContext ∅ ∅) "split-count"
            = EmptyString) as V by (vm_compute; reflexivity).
    destruct (H V) as (H1 & _ & K). split; [exact H1|].
    apply (K 5120 3); vm_compute; reflexivity.
Defined.

Lemma min_split_default_or_error_witness :
  getMinSplit Example.JFrogHelpUrl (Example.flagsContext ∅ ∅)
    DownloadMinSplitKb = (5120, None)
  /\ (exists cfg,
        CreateDownloadConfiguration Example.JFrogHelpUrl Example.GetThreadsCount
          (Example.flagsContext ∅ ∅) = (Some cfg, None)
        /\ MinSplitSize cfg = 5120)
  /\ CreateDownloadConfiguration Example.JFrogHelpUrl Example.GetThreadsCount
       (Example.flagsContext {[ "min-split" := "abc" ]} ∅)
     = (None, Some (minSplitNotNumeric Example.JFrogHelpUrl)).
Proof.
  pose proof (proj1 (min_split_default_or_error Example.JFrogHelpUrl
                       Example.GetThreadsCount (Example.flagsContext ∅ ∅))) as H.
  assert (GetStringFlagValue (Example.flagsContext ∅ ∅) minSplit = EmptyString)
    as V by (vm_compute; reflexivity).
  destruct (H V) as (H1 & _ & K). clear H V.
  split; [exact H1|]. split; [apply (K 3 3); vm_compute; reflexivity|].
  pose proof (proj1 (proj2 (min_split_default_or_error Example.JFrogHelpUrl
                              Example.GetThreadsCount
                              (Example.flagsContext {[ "min-split" := "abc" ]} ∅))))
    as H.
  assert (GetStringFlagValue (Example.flagsContext {[ "min-split" := "abc" ]} ∅)
            minSplit <> EmptyString) as V by (vm_compute; discriminate).
  specialize (H V 0 strconv.ErrSyntax). clear V.
  assert (strconv.ParseInt
            (GetStringFlagValue
               (Example.flagsContext {[ "min-split" := "abc" ]} ∅) minSplit)
            10 64 = (0, Some strconv.ErrSyntax)) as P by (vm_compute; reflexivity).
  exact (proj2 (H P)).
Defined.

Lemma split_count_last_violation_witness :
  snd (getSplitCount Example.JFrogHelpUrl
         (Example.flagsContext {[ "split-count" := "-99999999999999999999" ]} ∅)
         DownloadSplitCount DownloadMaxSplitCount)
  = Some splitCountNegative.
Proof.
  pose proof (split_count_last_violation Example.JFrogHelpUrl
                (Example.flagsContext
                   {[ "split-count" := "-99999999999999999999" ]} ∅)
                DownloadSplitCount DownloadMaxSplitCount) as H.
  assert (GetStringFlagValue
            (Example.flagsContext
               {[ "split-count" := "-99999999999999999999" ]} ∅) "split-count"
          <> EmptyString) as V by (vm_compute; discriminate).
  specialize (H V (-9223372036854775808) (Some strconv.ErrRange)). clear V.
  assert (strconv.Atoi
            (GetStringFlagValue
               (Example.flagsContext
                  {[ "split-count" := "-99999999999999999999" ]} ∅)
               "split-count")
          = (-9223372036854775808, Some strconv.ErrRange)) as P
      by (vm_compute; reflexivity).
  specialize (H P). clear P.
  apply (proj1 (proj2 H)). lia.
Defined.

(** A value too large for an [int]: the parse fails and leaves the largest
    [int], and the maximum check, run all the same, replaces the error. *)
Example split_count_parse_then_maximum :
  getSplitCount Example.JFrogHelpUrl
    (Example.flagsContext {[ "split-count" := "99999999999999999999" ]} ∅)
    DownloadSplitCount DownloadMaxSplitCount
  = (9223372036854775807, Some (splitCountAboveMax 15)).
Proof. vm_compute. reflexivity. Qed.

Example split_count_not_numeric :
  getSplitCount Example.JFrogHelpUrl
    (Example.flagsContext {[ "split-count" := "abc" ]} ∅)
    DownloadSplitCount DownloadMaxSplitCount
  = (0, Some (splitCountNotNumeric Example.JFrogHelpUrl)).
Proof. vm_compute. reflexivity. Qed.

Lemma empty_value_is_default_witness :
  getMinSplit Example.JFrogHelpUrl
    (Example.flagsContext {[ "min-split" := EmptyString ]} ∅)
    DownloadMinSplitKb = (5120, None)
  /\ getSplitCount Example.JFrogHelpUrl
       (Example.flagsContext {[ "split-count" := EmptyString ]} ∅)
       DownloadSplitCount DownloadMaxSplitCount = (3, None).
Proof.
  split.
  - apply (proj1 (empty_value_is_default Example.JFrogHelpUrl
                    (Example.flagsContext {[ "min-split" := EmptyString ]} ∅)));
      vm_compute; reflexivity.
  - apply (proj1 (proj2 (empty_value_is_default Example.JFrogHelpUrl
                           (Example.flagsContext
                              {[ "split-count" := EmptyString ]} ∅))));
      vm_compute; reflexivity.
Defined.

Lemma error_without_configuration_witness :
  fst (CreateDownloadConfiguration Example.JFrogHelpUrl Example.GetThreadsCount
         (Example.flagsContext {[ "threads" := "0" ]} ∅)) = None.
Proof.
  pose proof (proj1 (error_without_configuration Example.JFrogHelpUrl
                       Example.GetThreadsCount
                       (Example.flagsContext {[ "threads" := "0" ]} ∅))
                    (fst (CreateDownloadConfiguration Example.JFrogHelpUrl
                            Example.GetThreadsCount
                            (Example.flagsContext {[ "threads" := "0" ]} ∅)))
                    (errors_New
                       "the '--threads' option should have a numeric positive value"))
    as H.
  apply H. vm_compute. reflexivity.
Defined.

Lemma strings_array_of_flag_witness :
  GetStringsArrFlagValue (Example.flagsContext ∅ ∅) "exclusions" = []
  /\ GetStringsArrFlagValue
       (Example.flagsContext {[ "exclusions" := "a;b;c" ]} ∅) "exclusions"
     = ["a"; "b"; "c"].
Proof.
  split.
  - apply (proj1 (strings_array_of_flag (Example.flagsContext ∅ ∅) "exclusions")).
    vm_compute. reflexivity.
  - pose proof (proj2 (strings_array_of_flag
                         (Example.flagsContext {[ "exclusions" := "a;b;c" ]} ∅)
                         "exclusions")) as H.
    assert (IsFlagSet (Example.flagsContext {[ "exclusions" := "a;b;c" ]} ∅)
                      "exclusions" = true) as V by (vm_compute; reflexivity).
    specialize (H V). clear V.
    destruct H as (_ & _ & _ & _ & _ & H). apply H. vm_compute. reflexivity.
Defined.

Example strings_array_keeps_empty_segments :
  GetStringsArrFlagValue (Example.flagsContext {[ "exclusions" := "a;;b;" ]} ∅)
                         "exclusions"
  = ["a"; EmptyString; "b"; EmptyString]
  /\ GetStringsArrFlagValue
       (Example.flagsContext {[ "exclusions" := EmptyString ]} ∅) "exclusions"
     = [EmptyString].
Proof. split; vm_compute; reflexivity. Qed.

Lemma override_int_if_set_witness :
  OverrideIntIfSet 3 (Example.flagsContext ∅ ∅) "retries" = 3
  /\ OverrideIntIfSet 3 (Example.flagsContext {[ "retries" := "five" ]} ∅)
                      "retries" = 3
  /\ OverrideIntIfSet 3 (Example.flagsContext {[ "retries" := "0x1F" ]} ∅)
                      "retries" = 31.
Proof.
  split; [|split].
  - apply (proj1 (override_int_if_set 3 (Example.flagsContext ∅ ∅) "retries")).
    vm_compute. reflexivity.
  - pose proof (proj1 (proj2 (override_int_if_set 3
                                (Example.flagsContext {[ "retries" := "five" ]} ∅)
                                "retries"))) as H.
    assert (IsFlagSet (Example.flagsContext {[ "retries" := "five" ]} ∅) "retries"
            = true) as V by (vm_compute; reflexivity).
    apply (H V 0 strconv.ErrSyntax). vm_compute. reflexivity.
  - apply (proj1 (proj2 (proj2 (override_int_if_set 3
                                  (Example.flagsContext {[ "retries" := "0x1F" ]} ∅)
                                  "retries")))).
    + vm_compute. reflexivity.
    + vm_compute. reflexivity.
Defined.

Lemma quiet_value_witness :
  GetQuietValue Example.CI (Example.flagsContext ∅ {[ "quiet" := false ]})
                {[ "CI" := "true" ]} = false
  /\ GetQuietValue Example.CI (Example.flagsContext ∅ ∅) {[ "CI" := "true" ]}
     = true
  /\ GetQuietValue Example.CI (Example.flagsContext ∅ ∅) ∅ = false
  /\ GetQuietValue Example.CI (Example.flagsContext ∅ ∅) {[ "CI" := "yes" ]}
     = false.
Proof.
  split; [|split; [|split]].
  - pose proof (proj1 (quiet_value Example.CI
                         (Example.flagsContext ∅ {[ "quiet" := false ]})
                         {[ "CI" := "true" ]})) as H.
    assert (IsFlagSet (Example.flagsContext ∅ {[ "quiet" := false ]}) "quiet"
            = true) as V by (vm_compute; reflexivity).
    exact (H V).
  - pose proof (proj2 (quiet_value Example.CI (Example.flagsContext ∅ ∅)
                         {[ "CI" := "true" ]})) as H.
    assert (IsFlagSet (Example.flagsContext ∅ ∅) "quiet" = false) as V
        by (vm_compute; reflexivity).
    specialize (H V). clear V. destruct H as (_ & _ & _ & H).
    apply H. vm_compute. reflexivity.
  - pose proof (proj2 (quiet_value Example.CI (Example.flagsContext ∅ ∅) ∅)) as H.
    assert (IsFlagSet (Example.flagsContext ∅ ∅) "quiet" = false) as V
        by (vm_compute; reflexivity).
    specialize (H V). clear V. destruct H as (_ & H & _).
    apply H. vm_compute. reflexivity.
  - pose proof (proj2 (quiet_value Example.CI (Example.flagsContext ∅ ∅)
                         {[ "CI" := "yes" ]})) as H.
    assert (IsFlagSet (Example.flagsContext ∅ ∅) "quiet" = false) as V
        by (vm_compute; reflexivity).
    specialize (H V). clear V. destruct H as (_ & _ & H & _).
    apply (H "yes" strconv.ErrSyntax); vm_compute; reflexivity.
Defined.

Lemma project_from_flag_or_environment_witness :
  GetProject Example.Project (Example.flagsContext ∅ ∅)
             {[ "JFROG_CLI_BUILD_PROJECT" := "proj1" ]} = "proj1"
  /\ GetProject Example.Project (Example.flagsContext {[ "project" := "proj2" ]} ∅)
                {[ "JFROG_CLI_BUILD_PROJECT" := "proj1" ]}
     = GetStringFlagValue (Example.flagsContext {[ "project" := "proj2" ]} ∅)
                          "project"
  /\ GetProject Example.Project (Example.flagsContext ∅ ∅) ∅ = EmptyString.
Proof.
  split; [|split].
  - pose proof (proj2 (project_from_flag_or_environment Example.Project
                         (Example.flagsContext ∅ ∅)
                         {[ "JFROG_CLI_BUILD_PROJECT" := "proj1" ]})) as H.
    assert (GetStringFlagValue (Example.flagsContext ∅ ∅) "project" = EmptyString)
      as V by (vm_compute; reflexivity).
    apply (proj1 (H V)). vm_compute. reflexivity.
  - apply (proj1 (project_from_flag_or_environment Example.Project
                    (Example.flagsContext {[ "project" := "proj2" ]} ∅)
                    {[ "JFROG_CLI_BUILD_PROJECT" := "proj1" ]})).
    vm_compute. discriminate.
  - pose proof (proj2 (project_from_flag_or_environment Example.Project
                         (Example.flagsContext ∅ ∅) ∅)) as H.
    assert (GetStringFlagValue (Example.flagsContext ∅ ∅) "project" = EmptyString)
      as V by (vm_compute; reflexivity).
    apply (proj2 (H V)). vm_compute. reflexivity.
Defined.

Example project_flag_wins :
  GetProject Example.Project (Example.flagsContext {[ "project" := "proj2" ]} ∅)
             {[ "JFROG_CLI_BUILD_PROJECT" := "proj1" ]} = "proj2".
Proof. vm_compute. reflexivity. Qed.



(** * Further properties *)

(** ** The syntax the numeric flags accept *)

Lemma byte_of_range (ch : ascii) : 0 <= byte_of ch < 256.
Proof.
  unfold byte_of. pose proof (N_ascii_bounded ch) as H. lia.
Qed.

Lemma digitVal_digit (ch : ascii) :
  isDigit ch = true -> strconv.digitVal (byte_of ch) = Some (byte_of ch - 48).
Proof. unfold isDigit, strconv.digitVal. now intros ->. Qed.

Lemma digitVal_below_10 (ch : ascii) (d : Z) :
  strconv.digitVal (byte_of ch) = Some d -> d < 10 -> isDigit ch = true.
Proof.
  unfold strconv.digitVal, isDigit.
  destruct ((48 <=? byte_of ch) && (byte_of ch <=? 57)); [reflexivity|].
  destruct ((97 <=? strconv.lower (byte_of ch))
            && (strconv.lower (byte_of ch) <=? 122)) eqn:E; [|discriminate].
  intros [= <-] H. apply andb_prop in E as [E _]. lia.
Qed.

Lemma digitsLoop_10_digits (cutoff maxVal : Z) (s : string) (n v : Z)
      (u u' : bool) :
  strconv.digitsLoop false 10 cutoff maxVal s n u = (v, u', None) ->
  allDigits s = true.
Proof.
  revert n; induction s as [|ch rest IH]; intros n; simpl; [reflexivity|].
  rewrite andb_false_r.
  destruct (strconv.digitVal (byte_of ch)) as [d|] eqn:D; [|discriminate].
  change (10 mod 256) with 10.
  destruct (Z.geb_spec d 10); [discriminate|].
  rewrite (digitVal_below_10 ch d D) by lia.
  destruct (n >=? cutoff); [discriminate|].
  match goal with |- context [if ?b then _ else _] => destruct b end;
    [discriminate|].
  apply IH.
Qed.

Lemma digitsLoop_10_no_syntax_error (cutoff maxVal : Z) (s : string) (n v : Z)
      (u u' : bool) :
  allDigits s = true ->
  strconv.digitsLoop false 10 cutoff maxVal s n u
  <> (v, u', Some strconv.ErrSyntax).
Proof.
  revert n; induction s as [|ch rest IH]; intros n; simpl; [discriminate|].
  intros A. apply andb_prop in A as [A1 A2].
  rewrite andb_false_r, (digitVal_digit ch A1).
  change (10 mod 256) with 10.
  unfold isDigit in A1. apply andb_prop in A1 as [_ A1].
  destruct (Z.geb_spec (byte_of ch - 48) 10); [lia|].
  destruct (n >=? cutoff); [discriminate|].
  match goal with |- context [if ?b then _ else _] => destruct b end;
    [discriminate|].
  now apply IH.
Qed.

Lemma digitsLoop_error (base0 : bool) (base cutoff maxVal : Z) (s : string)
      (n v : Z) (u u' : bool) (e : strconv.Err) :
  strconv.digitsLoop base0 base cutoff maxVal s n u = (v, u', Some e) ->
  (e = strconv.ErrSyntax /\ v = 0) \/ (e = strconv.ErrRange /\ v = maxVal).
Proof.
  revert n u; induction s as [|ch rest IH]; intros n u; simpl; [discriminate|].
  destruct ((byte_of ch =? 95) && base0); [apply IH|].
  destruct (strconv.digitVal (byte_of ch)) as [d|]; [|intros [= <- <- <-]; now left].
  destruct (d >=? base mod 256); [intros [= <- <- <-]; now left|].
  destruct (n >=? cutoff); [intros [= <- <- <-]; now right|].
  match goal with |- context [if ?b then _ else _] => destruct b end;
    [intros [= <- <- <-]; now right|].
  apply IH.
Qed.

Lemma digitsLoop_10_underscores (cutoff maxVal : Z) (s : string) (n v : Z)
      (u u' : bool) (e : option strconv.Err) :
  strconv.digitsLoop false 10 cutoff maxVal s n u = (v, u', e) -> u' = u.
Proof.
  revert n; induction s as [|ch rest IH]; intros n; simpl; [now intros [= <- <- <-]|].
  rewrite andb_false_r.
  destruct (strconv.digitVal (byte_of ch)) as [d|]; [|now intros [= <- <- <-]].
  destruct (d >=? 10 mod 256); [now intros [= <- <- <-]|].
  destruct (n >=? cutoff); [now intros [= <- <- <-]|].
  match goal with |- context [if ?b then _ else _] => destruct b end;
    [now intros [= <- <- <-]|].
  apply IH.
Qed.

Lemma ParseUint_10_64 (s : string) :
  s <> EmptyString ->
  strconv.ParseUint s 10 64
  = match strconv.digitsLoop false 10 (strconv.maxUint64 / 10 + 1)
            strconv.maxUint64 s 0 false with
    | (v, _, Some e) => (v, Some e)
    | (n, _, None) => (n, None)
    end.
Proof.
  destruct s as [|c0 rest]; [contradiction|]. intros _.
  unfold strconv.ParseUint.
  change (10 =? 0) with false. cbv iota beta.
  change (negb ((2 <=? 10) && (10 <=? 36) || false)) with false. cbv iota beta.
  change ((64 <? 0) || (64 >? 64)) with false. cbv iota.
  change (64 =? 0) with false. cbv iota.
  change (strconv.to_uint64 (Z.shiftl 1 64 - 1)) with strconv.maxUint64.
  destruct (strconv.digitsLoop false 10 (strconv.maxUint64 / 10 + 1)
              strconv.maxUint64 (String c0 rest) 0 false) as [[v u] [e|]] eqn:E;
    [reflexivity|].
  apply digitsLoop_10_underscores in E. now subst u.
Qed.

Lemma ParseInt_10_0 (s : string) :
  strconv.ParseInt s 10 0 = strconv.ParseInt s 10 64.
Proof. destruct s as [|c0 [|c1 rest]]; reflexivity. Qed.

Lemma ParseInt_digits (neg : bool) (s : string) (v : Z) (e : option strconv.Err) :
  s <> EmptyString ->
  match strconv.ParseUint s 10 64 with
  | (_, Some strconv.ErrSyntax) => (0, Some strconv.ErrSyntax)
  | (_, Some strconv.ErrBase) => (0, Some strconv.ErrBase)
  | (_, Some strconv.ErrBitSize) => (0, Some strconv.ErrBitSize)
  | (un, _) =>
      let bitSize := if 64 =? 0 then strconv.IntSize else 64 in
      let cutoff := strconv.to_uint64 (Z.shiftl 1 (bitSize - 1)) in
      if negb neg && (un >=? cutoff)
      then (strconv.to_int64 (cutoff - 1), Some strconv.ErrRange)
      else if neg && (un >? cutoff)
      then (strconv.to_int64 (- strconv.to_int64 cutoff), Some strconv.ErrRange)
      else
        let n := strconv.to_int64 un in
        ((if neg then strconv.to_int64 (- n) else n), None)
  end = (v, e) ->
  match e with
  | None => allDigits s = true /\ isInt64 v
  | Some strconv.ErrSyntax => v = 0
  | Some strconv.ErrRange =>
      v = 9223372036854775807 \/ v = -9223372036854775808
  | Some _ => False
  end.
Proof.
  intros N. rewrite (ParseUint_10_64 s N).
  destruct (strconv.digitsLoop false 10 (strconv.maxUint64 / 10 + 1)
              strconv.maxUint64 s 0 false) as [[un u] [e'|]] eqn:D.
  - destruct (digitsLoop_error _ _ _ _ _ _ _ _ _ _ D) as [[-> ->]|[-> ->]].
    + now intros [= <- <-].
    + destruct neg; intros [= <- <-]; [now right | now left].
  - cbv zeta.
    change (strconv.to_uint64 (Z.shiftl 1 ((if 64 =? 0 then strconv.IntSize else 64) - 1)))
      with 9223372036854775808.
    change (strconv.to_int64 (9223372036854775808 - 1)) with 9223372036854775807.
    change (strconv.to_int64 (- strconv.to_int64 9223372036854775808))
      with (-9223372036854775808).
    apply digitsLoop_10_digits in D.
    destruct (negb neg && (un >=? 9223372036854775808));
      [intros [= <- <-]; now left|].
    destruct (neg && (un >? 9223372036854775808));
      [intros [= <- <-]; now right|].
    intros [= <- <-]. split; [exact D|].
    destruct neg; apply to_int64_range.
Qed.

Lemma ParseInt_10_64_result (s : string) (v : Z) (e : option strconv.Err) :
  strconv.ParseInt s 10 64 = (v, e) -> ParseInt_result s v e.
Proof.
  unfold strconv.ParseInt, ParseInt_result.
  destruct s as [|c0 rest]; [now intros [= <- <-]|].
  unfold decimalSyntax, strconv.isSign.
  destruct (byte_of c0 =? 43) eqn:E43; [|destruct (byte_of c0 =? 45) eqn:E45].
  - rewrite orb_true_r.
    destruct rest as [|c1 rest]; [now intros [= <- <-]|].
    intros H. apply (ParseInt_digits false) in H; [|discriminate].
    destruct e as [[]|]; exact H.
  - cbn [orb].
    destruct rest as [|c1 rest]; [now intros [= <- <-]|].
    intros H. apply (ParseInt_digits true) in H; [|discriminate].
    destruct e as [[]|]; exact H.
  - cbn [orb].
    intros H. apply (ParseInt_digits false) in H; [|discriminate].
    exact H.
Qed.

Lemma ParseInt_10_64_decimal (s : string) :
  decimalSyntax s = true ->
  snd (strconv.ParseInt s 10 64) <> Some strconv.ErrSyntax.
Proof.
  assert (forall (neg : bool) (s' : string),
             s' <> EmptyString -> allDigits s' = true ->
             forall v, strconv.ParseUint s' 10 64 <> (v, Some strconv.ErrSyntax)) as U.
  { intros neg s' N A v. rewrite (ParseUint_10_64 s' N).
    destruct (strconv.digitsLoop false 10 (strconv.maxUint64 / 10 + 1)
                strconv.maxUint64 s' 0 false) as [[un u] [e'|]] eqn:D;
      [|discriminate].
    intros [= -> ->]. now apply digitsLoop_10_no_syntax_error in D. }
  unfold strconv.ParseInt, decimalSyntax, strconv.isSign.
  destruct s as [|c0 rest]; [discriminate|].
  assert (forall (neg : bool) (s' : string),
             s' <> EmptyString -> allDigits s' = true ->
             snd (match strconv.ParseUint s' 10 64 with
                  | (_, Some strconv.ErrSyntax) => (0, Some strconv.ErrSyntax)
                  | (_, Some strconv.ErrBase) => (0, Some strconv.ErrBase)
                  | (_, Some strconv.ErrBitSize) => (0, Some strconv.ErrBitSize)
                  | (un, _) =>
                      let bitSize := if 64 =? 0 then strconv.IntSize else 64 in
                      let cutoff := strconv.to_uint64 (Z.shiftl 1 (bitSize - 1)) in
                      if negb neg && (un >=? cutoff)
                      then (strconv.to_int64 (cutoff - 1), Some strconv.ErrRange)
                      else if neg && (un >? cutoff)
                      then (strconv.to_int64 (- strconv.to_int64 cutoff),
                            Some strconv.ErrRange)
                      else
                        let n := strconv.to_int64 un in
                        ((if neg then strconv.to_int64 (- n) else n), None)
                  end) <> Some strconv.ErrSyntax) as P.
  { intros neg s' N A. specialize (U neg s' N A).
    destruct (strconv.ParseUint s' 10 64) as [un [[]|]]; cbv zeta;
      try (now destruct (U un));
      repeat match goal with
             | |- context [if ?b then _ else _] => destruct b
             end; discriminate. }
  destruct (byte_of c0 =? 43) eqn:E43; [|destruct (byte_of c0 =? 45) eqn:E45].
  - rewrite orb_true_r. intros A. apply andb_prop in A as [A1 A2].
    apply P; [|exact A2]. intros ->. discriminate.
  - cbn [orb]. intros A. apply andb_prop in A as [A1 A2].
    apply P; [|exact A2]. intros ->. discriminate.
  - cbn [orb]. intros A. apply P; [discriminate|exact A].
Qed.

Lemma atoi_byte_check (ch : ascii) :
  ((byte_of ch - 48) mod 256 >? 9) = negb (isDigit ch).
Proof.
  unfold isDigit. pose proof (byte_of_range ch) as R.
  destruct (Z.gtb_spec ((byte_of ch - 48) mod 256) 9) as [G|G];
    destruct (Z.leb_spec 48 (byte_of ch)) as [L|L];
    destruct (Z.leb_spec (byte_of ch) 57) as [L'|L']; try reflexivity;
    exfalso; revert G; Z.div_mod_to_equations; lia.
Qed.

Lemma atoiLoop_digits (s : string) (n : Z) :
  allDigits s = true <-> exists v, strconv.atoiLoop s n = Some v.
Proof.
  revert n; induction s as [|ch rest IH]; intros n; simpl.
  - split; [now exists n | reflexivity].
  - rewrite atoi_byte_check. destruct (isDigit ch); cbn [negb andb].
    + apply IH.
    + split; [discriminate | now intros [v H]].
Qed.

Lemma atoiLoop_int64 (s : string) (n v : Z) :
  strconv.atoiLoop s n = Some v -> isInt64 n -> isInt64 v.
Proof.
  revert n; induction s as [|ch rest IH]; intros n; simpl.
  - now intros [= <-].
  - destruct ((byte_of ch - 48) mod 256 >? 9); [discriminate|].
    intros H _. apply (IH _ H). apply to_int64_range.
Qed.

Lemma length_lt_1 (s : string) :
  (Z.of_nat (String.length s) <? 1) = String.eqb s EmptyString.
Proof.
  destruct s as [|ch rest]; [reflexivity|]. cbn [String.length String.eqb].
  destruct (Z.ltb_spec (Z.of_nat (S (String.length rest))) 1); [lia|reflexivity].
Qed.

Lemma Atoi_result (s : string) (v : Z) (e : option strconv.Err) :
  strconv.Atoi s = (v, e) -> ParseInt_result s v e.
Proof.
  unfold strconv.Atoi.
  destruct ((strconv.IntSize =? 64) && (0 <? Z.of_nat (String.length s))
            && (Z.of_nat (String.length s) <? 19)).
  - destruct s as [|c0 rest]; [now intros [= <- <-]|].
    unfold ParseInt_result, decimalSyntax. cbv zeta.
    rewrite length_lt_1.
    destruct (strconv.isSign (byte_of c0)) eqn:S.
    + destruct (String.eqb rest EmptyString); cbn [andb negb];
        [now intros [= <- <-]|].
      destruct (strconv.atoiLoop rest 0) as [n|] eqn:A; [|now intros [= <- <-]].
      intros [= <- <-]. split; [apply (proj2 (atoiLoop_digits rest 0)); eauto|].
      apply atoiLoop_int64 in A; [|unfold isInt64; lia].
      destruct (byte_of c0 =? 45); [apply to_int64_range | exact A].
    + cbn [andb].
      destruct (strconv.atoiLoop (String c0 rest) 0) as [n|] eqn:A;
        [|now intros [= <- <-]].
      intros [= <- <-]. split; [apply (proj2 (atoiLoop_digits (String c0 rest) 0)); eauto|].
      apply atoiLoop_int64 in A; [|unfold isInt64; lia].
      destruct (byte_of c0 =? 45); [apply to_int64_range | exact A].
  - rewrite ParseInt_10_0.
    destruct (strconv.ParseInt s 10 64) as [i64 err] eqn:P.
    apply ParseInt_10_64_result in P. intros [= <- <-].
    destruct err as [[]|]; cbn in P |- *; try contradiction.
    + now subst i64.
    + destruct P as [->| ->]; [now left | now right].
    + split; [apply P | apply to_int64_range].
Qed.

Lemma Atoi_decimal (s : string) :
  decimalSyntax s = true -> snd (strconv.Atoi s) <> Some strconv.ErrSyntax.
Proof.
  intros D. unfold strconv.Atoi.
  destruct ((strconv.IntSize =? 64) && (0 <? Z.of_nat (String.length s))
            && (Z.of_nat (String.length s) <? 19)).
  - destruct s as [|c0 rest]; [discriminate|].
    unfold decimalSyntax in D. cbv zeta. rewrite length_lt_1.
    destruct (strconv.isSign (byte_of c0)).
    + apply andb_prop in D as [D1 D2].
      apply negb_true_iff in D1. rewrite D1. cbn [andb].
      apply (proj1 (atoiLoop_digits rest 0)) in D2 as [n ->]. discriminate.
    + cbn [andb]. apply (proj1 (atoiLoop_digits (String c0 rest) 0)) in D as [n ->].
      discriminate.
  - rewrite ParseInt_10_0. pose proof (ParseInt_10_64_decimal s D) as P.
    now destruct (strconv.ParseInt s 10 64).
Qed.

Lemma digitsLoop_base0_digits (base cutoff maxVal : Z) (s : string) (n : Z)
      (u : bool) :
  allDigits s = true ->
  strconv.digitsLoop true base cutoff maxVal s n u
  = strconv.digitsLoop false base cutoff maxVal s n u.
Proof.
  revert n; induction s as [|ch rest IH]; intros n A; simpl; [reflexivity|].
  simpl in A. apply andb_prop in A as [A1 A2].
  assert ((byte_of ch =? 95) = false) as ->.
  { unfold isDigit in A1. apply andb_prop in A1 as [_ A1]. lia. }
  cbn [andb].
  destruct (strconv.digitVal (byte_of ch)) as [d|]; [|reflexivity].
  destruct (d >=? base mod 256); [reflexivity|].
  destruct (n >=? cutoff); [reflexivity|].
  match goal with |- context [if ?b then _ else _] => destruct b end;
    [reflexivity|].
  now apply IH.
Qed.

Lemma ParseUint_0_plain (c0 : ascii) (rest : string) :
  (byte_of c0 =? 48) = false ->
  allDigits (String c0 rest) = true ->
  strconv.ParseUint (String c0 rest) 0 64
  = strconv.ParseUint (String c0 rest) 10 64.
Proof.
  intros Z A. rewrite (ParseUint_10_64 (String c0 rest)) by discriminate.
  unfold strconv.ParseUint.
  change (0 =? 0) with true. cbv iota beta.
  change (negb ((2 <=? 0) && (0 <=? 36) || true)) with false. cbv iota beta.
  unfold strconv.detectBase. rewrite Z.
  change ((64 <? 0) || (64 >? 64)) with false. cbv iota.
  change (64 =? 0) with false. cbv iota.
  change (strconv.to_uint64 (Z.shiftl 1 64 - 1)) with strconv.maxUint64.
  rewrite (digitsLoop_base0_digits _ _ _ _ _ _ A).
  destruct (strconv.digitsLoop false 10 (strconv.maxUint64 / 10 + 1)
              strconv.maxUint64 (String c0 rest) 0 false) as [[v u] [e|]] eqn:E;
    [reflexivity|].
  apply digitsLoop_10_underscores in E. now subst u.
Qed.

Lemma ParseInt_0_plain (s : string) :
  plainDecimal s = true ->
  strconv.ParseInt s 0 64 = strconv.ParseInt s 10 64.
Proof.
  unfold plainDecimal, strconv.ParseInt, strconv.isSign.
  destruct s as [|c0 rest]; [discriminate|].
  destruct (byte_of c0 =? 43) eqn:E43; [|destruct (byte_of c0 =? 45) eqn:E45].
  - rewrite orb_true_r. destruct rest as [|c1 rest]; [discriminate|].
    intros A. apply andb_prop in A as [A1 A2]. apply negb_true_iff in A1.
    now rewrite (ParseUint_0_plain c1 rest A1 A2).
  - cbn [orb]. destruct rest as [|c1 rest]; [discriminate|].
    intros A. apply andb_prop in A as [A1 A2]. apply negb_true_iff in A1.
    now rewrite (ParseUint_0_plain c1 rest A1 A2).
  - cbn [orb].
    intros A. apply andb_prop in A as [A1 A2]. apply negb_true_iff in A1.
    now rewrite (ParseUint_0_plain c0 rest A1 A2).
Qed.

Lemma uintValue_ge (d : Decimal.uint) (acc : Z) :
  0 <= acc -> acc <= uintValue d acc.
Proof.
  revert acc; induction d as [|l IH|l IH|l IH|l IH|l IH|l IH|l IH|l IH|l IH|l IH];
    intros acc H; simpl; [lia|..];
    (etransitivity; [|apply IH]); lia.
Qed.

Lemma of_uint_acc_value (d : Decimal.uint) (acc : positive) :
  Z.pos (Pos.of_uint_acc d acc) = uintValue d (Z.pos acc).
Proof.
  revert acc; induction d as [|l IH|l IH|l IH|l IH|l IH|l IH|l IH|l IH|l IH|l IH];
    intros acc; simpl; [reflexivity|..]; rewrite IH; f_equal; lia.
Qed.

Lemma of_uint_value (d : Decimal.uint) :
  Z.of_N (Pos.of_uint d) = uintValue d 0.
Proof.
  induction d as [|l IH|l IH|l IH|l IH|l IH|l IH|l IH|l IH|l IH|l IH];
    simpl; [reflexivity|exact IH|..]; apply of_uint_acc_value.
Qed.

Lemma to_uint_value (p : positive) : uintValue (Pos.to_uint p) 0 = Z.pos p.
Proof. now rewrite <- of_uint_value, DecimalPos.Unsigned.of_to. Qed.

Lemma digitsLoop_string_of_uint (d : Decimal.uint) (n : Z) :
  0 <= n -> uintValue d n <= strconv.maxUint64 ->
  strconv.digitsLoop false 10 (strconv.maxUint64 / 10 + 1) strconv.maxUint64
    (NilEmpty.string_of_uint d) n false
  = (uintValue d n, false, None).
Proof.
  change (strconv.maxUint64 / 10 + 1) with 1844674407370955162.
  unfold strconv.maxUint64. change (2 ^ 64 - 1) with 18446744073709551615.
  revert n; induction d as [|l IH|l IH|l IH|l IH|l IH|l IH|l IH|l IH|l IH|l IH];
    intros n H B; [reflexivity|..];
    cbn [NilEmpty.string_of_uint uintValue strconv.digitsLoop] in B |- *;
    match goal with
    | |- context [strconv.digitVal (byte_of ?c)] =>
        let v := eval vm_compute in (strconv.digitVal (byte_of c)) in
        change (strconv.digitVal (byte_of c)) with v;
        let b := eval vm_compute in (byte_of c =? 95) in
        change (byte_of c =? 95) with b
    end;
    cbn [andb]; change (10 mod 256) with 10;
    match goal with
    | |- context [?k >=? 10] =>
        let b := eval vm_compute in (k >=? 10) in change (k >=? 10) with b
    end; cbv iota;
    match type of B with
    | uintValue _ ?m <= _ =>
        pose proof (uintValue_ge l m ltac:(lia)) as G;
        destruct (Z.geb_spec n 1844674407370955162); [lia|];
        unfold strconv.to_uint64;
        rewrite (Z.mod_small (n * 10)) by lia;
        match goal with
        | |- context [(n * 10 + ?k) mod 2 ^ 64] =>
            rewrite (Z.mod_small (n * 10 + k)) by lia;
            destruct (Z.ltb_spec (n * 10 + k) (n * 10)); [lia|];
            destruct (Z.gtb_spec (n * 10 + k) 18446744073709551615); [lia|];
            cbn [orb];
            replace (n * 10 + k) with m by lia
        end;
        apply IH; lia
    end.
Qed.

Lemma atoiLoop_string_of_uint (d : Decimal.uint) (n : Z) :
  0 <= n -> uintValue d n < 2 ^ 63 ->
  strconv.atoiLoop (NilEmpty.string_of_uint d) n = Some (uintValue d n).
Proof.
  revert n; induction d as [|l IH|l IH|l IH|l IH|l IH|l IH|l IH|l IH|l IH|l IH];
    intros n H B; [reflexivity|..];
    cbn [NilEmpty.string_of_uint uintValue strconv.atoiLoop] in B |- *;
    match goal with
    | |- context [(byte_of ?c - 48) mod 256] =>
        let v := eval vm_compute in ((byte_of c - 48) mod 256) in
        change ((byte_of c - 48) mod 256) with v
    end;
    match goal with
    | |- context [?k >? 9] =>
        let b := eval vm_compute in (k >? 9) in change (k >? 9) with b
    end; cbv iota;
    match type of B with
    | uintValue _ ?m < _ =>
        pose proof (uintValue_ge l m ltac:(lia)) as G;
        match goal with
        | |- context [strconv.to_int64 ?t] =>
            replace (strconv.to_int64 t) with m
              by (unfold strconv.to_int64; rewrite Z.mod_small; lia)
        end;
        apply IH; lia
    end.
Qed.

Lemma string_of_uint_head (d : Decimal.uint) :
  d <> Decimal.Nil ->
  exists (ch : ascii) (rest : string),
    NilEmpty.string_of_uint d = String ch rest /\ isDigit ch = true.
Proof.
  destruct d; [contradiction|..]; intros _; eexists; eexists;
    (split; [reflexivity|reflexivity]).
Qed.

Lemma ParseUint_string_of_uint (d : Decimal.uint) :
  d <> Decimal.Nil -> uintValue d 0 <= strconv.maxUint64 ->
  strconv.ParseUint (NilEmpty.string_of_uint d) 10 64 = (uintValue d 0, None).
Proof.
  intros N B. destruct (string_of_uint_head d N) as (ch & rest & E & _).
  rewrite ParseUint_10_64 by (rewrite E; discriminate).
  now rewrite digitsLoop_string_of_uint by (lia || assumption).
Qed.

Lemma digit_not_sign (ch : ascii) :
  isDigit ch = true -> (byte_of ch =? 43) = false /\ (byte_of ch =? 45) = false.
Proof. unfold isDigit. intros H. apply andb_prop in H as [H _]. lia. Qed.

Lemma ParseInt_unsigned (ch : ascii) (rest : string) (v : Z) :
  isDigit ch = true ->
  strconv.ParseUint (String ch rest) 10 64 = (v, None) ->
  0 <= v < 2 ^ 63 ->
  strconv.ParseInt (String ch rest) 10 64 = (v, None).
Proof.
  intros D U B. unfold strconv.ParseInt.
  destruct (digit_not_sign ch D) as [-> ->]. rewrite U. cbv zeta.
  change (strconv.to_uint64 (Z.shiftl 1 ((if 64 =? 0 then strconv.IntSize else 64) - 1)))
    with 9223372036854775808.
  cbn [negb andb].
  destruct (Z.geb_spec v 9223372036854775808); [lia|].
  unfold strconv.to_int64. f_equal. rewrite Z.mod_small; lia.
Qed.

Lemma ParseInt_minus (rest : string) (v : Z) :
  strconv.ParseUint rest 10 64 = (v, None) ->
  0 <= v <= 2 ^ 63 ->
  strconv.ParseInt (String "-" rest) 10 64 = (- v, None).
Proof.
  intros U B. unfold strconv.ParseInt.
  change (byte_of "-" =? 43) with false. change (byte_of "-" =? 45) with true.
  cbv iota. rewrite U. cbv zeta.
  change (strconv.to_uint64 (Z.shiftl 1 ((if 64 =? 0 then strconv.IntSize else 64) - 1)))
    with 9223372036854775808.
  cbn [negb andb].
  destruct (Z.gtb_spec v 9223372036854775808); [lia|].
  f_equal. unfold strconv.to_int64.
  destruct (Z.eq_dec v 9223372036854775808) as [->|N]; [reflexivity|].
  rewrite (Z.mod_small (v + 2 ^ 63)) by lia.
  replace (- (v + 2 ^ 63 - 2 ^ 63) + 2 ^ 63) with (2 ^ 63 - v) by lia.
  rewrite Z.mod_small; lia.
Qed.

(** [ParseInt] and [Atoi] read back what [Itoa] writes. *)
Lemma ParseInt_Itoa (n : Z) :
  isInt64 n -> strconv.ParseInt (strconv.Itoa n) 10 64 = (n, None).
Proof.
  unfold isInt64, strconv.Itoa. intros B. destruct n as [|p|p].
  - reflexivity.
  - cbn [Z.to_int NilZero.string_of_int].
    pose proof (DecimalPos.Unsigned.to_uint_nonnil p) as N.
    pose proof (to_uint_value p) as V.
    assert (NilZero.string_of_uint (Pos.to_uint p)
            = NilEmpty.string_of_uint (Pos.to_uint p)) as ->
        by (destruct (Pos.to_uint p); [contradiction|reflexivity..]).
    pose proof (ParseUint_string_of_uint (Pos.to_uint p) N) as U.
    rewrite V in U. specialize (U ltac:(unfold strconv.maxUint64; lia)).
    destruct (string_of_uint_head _ N) as (ch & rest & E & D).
    rewrite E in *. apply ParseInt_unsigned; [exact D | exact U | lia].
  - cbn [Z.to_int NilZero.string_of_int].
    pose proof (DecimalPos.Unsigned.to_uint_nonnil p) as N.
    pose proof (to_uint_value p) as V.
    assert (NilZero.string_of_uint (Pos.to_uint p)
            = NilEmpty.string_of_uint (Pos.to_uint p)) as ->
        by (destruct (Pos.to_uint p); [contradiction|reflexivity..]).
    pose proof (ParseUint_string_of_uint (Pos.to_uint p) N) as U.
    rewrite V in U. specialize (U ltac:(unfold strconv.maxUint64; lia)).
    change (Z.neg p) with (- Z.pos p). apply ParseInt_minus; [exact U | lia].
Qed.

Lemma Atoi_Itoa (n : Z) :
  isInt64 n -> strconv.Atoi (strconv.Itoa n) = (n, None).
Proof.
  intros B.
  destruct (Z.eq_dec n (- 2 ^ 63)) as [->|M]; [vm_compute; reflexivity|].
  unfold strconv.Atoi.
  destruct ((strconv.IntSize =? 64)
            && (0 <? Z.of_nat (String.length (strconv.Itoa n)))
            && (Z.of_nat (String.length (strconv.Itoa n)) <? 19)).
  - unfold isInt64, strconv.Itoa in *. destruct n as [|p|p].
    + reflexivity.
    + cbn [Z.to_int NilZero.string_of_int].
      pose proof (DecimalPos.Unsigned.to_uint_nonnil p) as N.
      pose proof (to_uint_value p) as V.
      assert (NilZero.string_of_uint (Pos.to_uint p)
              = NilEmpty.string_of_uint (Pos.to_uint p)) as ->
          by (destruct (Pos.to_uint p); [contradiction|reflexivity..]).
      pose proof (atoiLoop_string_of_uint (Pos.to_uint p) 0 ltac:(lia)) as A.
      rewrite V in A. specialize (A ltac:(lia)).
      destruct (string_of_uint_head _ N) as (ch & rest & E & D).
      rewrite E in *. destruct (digit_not_sign ch D) as [S1 S2].
      unfold strconv.isSign. rewrite S1, S2. cbn [orb andb]. cbv zeta.
      now rewrite A.
    + cbn [Z.to_int NilZero.string_of_int].
      pose proof (DecimalPos.Unsigned.to_uint_nonnil p) as N.
      pose proof (to_uint_value p) as V.
      assert (NilZero.string_of_uint (Pos.to_uint p)
              = NilEmpty.string_of_uint (Pos.to_uint p)) as ->
          by (destruct (Pos.to_uint p); [contradiction|reflexivity..]).
      destruct (string_of_uint_head _ N) as (ch & rest & E & D).
      change (strconv.isSign (byte_of "-")) with true.
      change (byte_of "-" =? 45) with true. cbv zeta iota.
      rewrite length_lt_1, E. cbn [String.eqb andb].
      pose proof (atoiLoop_string_of_uint (Pos.to_uint p) 0 ltac:(lia)) as A.
      rewrite V in A. specialize (A ltac:(lia)). rewrite E in A. rewrite A.
      f_equal. unfold strconv.to_int64.
      replace (- Z.pos p + 2 ^ 63) with (2 ^ 63 - Z.pos p) by lia.
      rewrite Z.mod_small; lia.
  - rewrite ParseInt_10_0, (ParseInt_Itoa n B). f_equal.
    unfold strconv.to_int64, isInt64 in *. rewrite Z.mod_small; lia.
Qed.

(** ** What the numeric flags accept and return *)

Section NumericFlagFacts.

Variable JFrogHelpUrl : string.
Variable cliutils_GetThreadsCount : string -> Z * option error.

Lemma splitCountNotNumeric_other (maxSplitCount : Z) :
  splitCountNotNumeric JFrogHelpUrl <> splitCountNegative
  /\ splitCountNotNumeric JFrogHelpUrl <> splitCountAboveMax maxSplitCount.
Proof. split; intros H; vm_compute in H; discriminate. Qed.

(** X1: a min-split value that is not empty is accepted only when it is an
    optional sign followed by decimal digits, and the value returned is
    then an int64; a value of any other form gives the not-numeric error
    with the value 0; a value of that form is rejected only when ParseInt
    reports it out of range. *)
Theorem min_split_decimal_syntax (c : Context) (defaultMinSplit : Z) :
  GetStringFlagValue c minSplit <> EmptyString ->
  (forall v,
      getMinSplit JFrogHelpUrl c defaultMinSplit = (v, None) ->
      decimalSyntax (GetStringFlagValue c minSplit) = true /\ isInt64 v)
  /\ (decimalSyntax (GetStringFlagValue c minSplit) = false ->
      getMinSplit JFrogHelpUrl c defaultMinSplit
      = (0, Some (minSplitNotNumeric JFrogHelpUrl)))
  /\ (decimalSyntax (GetStringFlagValue c minSplit) = true ->
      snd (getMinSplit JFrogHelpUrl c defaultMinSplit) <> None ->
      snd (strconv.ParseInt (GetStringFlagValue c minSplit) 10 64)
      = Some strconv.ErrRange).
Proof.
  intros N. rewrite (getMinSplit_supplied JFrogHelpUrl c defaultMinSplit N).
  pose proof (ParseInt_10_64_result (GetStringFlagValue c minSplit)) as R.
  pose proof (ParseInt_10_64_decimal (GetStringFlagValue c minSplit)) as D.
  destruct (strconv.ParseInt (GetStringFlagValue c minSplit) 10 64)
    as [w [e|]]; specialize (R w _ eq_refl); cbn [snd] in *.
  - split; [discriminate|]. split; [reflexivity|].
    intros S _. specialize (D S). unfold ParseInt_result in R.
    destruct e; (contradiction || congruence).
  - destruct R as [R1 R2]. split; [|split].
    + intros v [= <-]. now split.
    + congruence.
    + intros _ H. now destruct H.
Qed.

(** X2: when getSplitCount returns no error, either the split-count value
    is empty and the count is the default given (which is not checked), or
    the value is an optional sign followed by decimal digits and the count
    lies between 0 and the maximum given. *)
Theorem split_count_accepted (c : Context)
        (defaultSplitCount maxSplitCount : Z) :
  snd (getSplitCount JFrogHelpUrl c defaultSplitCount maxSplitCount) = None ->
  (GetStringFlagValue c "split-count" = EmptyString
   /\ fst (getSplitCount JFrogHelpUrl c defaultSplitCount maxSplitCount)
      = defaultSplitCount)
  \/ (decimalSyntax (GetStringFlagValue c "split-count") = true
      /\ 0 <= fst (getSplitCount JFrogHelpUrl c defaultSplitCount maxSplitCount)
         <= maxSplitCount).
Proof.
  destruct (String.eqb_spec (GetStringFlagValue c "split-count") EmptyString)
    as [E|N].
  - rewrite (getSplitCount_empty JFrogHelpUrl c _ _ E). now left.
  - rewrite (getSplitCount_supplied JFrogHelpUrl c _ _ N). cbn [fst snd].
    pose proof (Atoi_result (GetStringFlagValue c "split-count")) as R.
    destruct (strconv.Atoi (GetStringFlagValue c "split-count")) as [v e].
    specialize (R v e eq_refl). cbn [fst snd]. unfold lastViolation.
    destruct (Z.ltb_spec v 0); [discriminate|].
    destruct (Z.gtb_spec v maxSplitCount); [discriminate|].
    destruct e as [e|]; [discriminate|]. intros _. right.
    split; [apply R | lia].
Qed.

(** X3: with a maximum between 0 and the largest int less one, the
    not-numeric error of getSplitCount is returned exactly when Atoi fails
    with a syntax error; a well-formed decimal number never gets it: when it
    is out of the int range, Atoi leaves the nearest bound and the error is
    the maximum error (too large) or the negative-value error (too
    small). *)
Theorem split_count_error_kind (c : Context)
        (defaultSplitCount maxSplitCount : Z) :
  GetStringFlagValue c "split-count" <> EmptyString ->
  0 <= maxSplitCount < 9223372036854775807 ->
  (snd (getSplitCount JFrogHelpUrl c defaultSplitCount maxSplitCount)
   = Some (splitCountNotNumeric JFrogHelpUrl)
   <-> snd (strconv.Atoi (GetStringFlagValue c "split-count"))
       = Some strconv.ErrSyntax)
  /\ (decimalSyntax (GetStringFlagValue c "split-count") = true ->
      snd (getSplitCount JFrogHelpUrl c defaultSplitCount maxSplitCount)
      <> Some (splitCountNotNumeric JFrogHelpUrl))
  /\ (snd (strconv.Atoi (GetStringFlagValue c "split-count"))
      = Some strconv.ErrRange ->
      getSplitCount JFrogHelpUrl c defaultSplitCount maxSplitCount
      = (9223372036854775807, Some (splitCountAboveMax maxSplitCount))
      \/ getSplitCount JFrogHelpUrl c defaultSplitCount maxSplitCount
         = (-9223372036854775808, Some splitCountNegative)).
Proof.
  intros N M. rewrite (getSplitCount_supplied JFrogHelpUrl c _ _ N).
  pose proof (Atoi_result (GetStringFlagValue c "split-count")) as R.
  pose proof (Atoi_decimal (GetStringFlagValue c "split-count")) as D.
  destruct (splitCountNotNumeric_other maxSplitCount) as [D1 D2].
  destruct (strconv.Atoi (GetStringFlagValue c "split-count")) as [v e].
  specialize (R v e eq_refl). cbn [fst snd] in *.
  assert (lastViolation JFrogHelpUrl v e maxSplitCount
          = Some (splitCountNotNumeric JFrogHelpUrl)
          <-> e = Some strconv.ErrSyntax) as K.
  { unfold lastViolation, ParseInt_result in *.
    destruct (Z.ltb_spec v 0); [|destruct (Z.gtb_spec v maxSplitCount)].
    - split; [congruence|]. intros ->. lia.
    - split; [congruence|]. intros ->. lia.
    - destruct e as [[]|]; try contradiction; split; try congruence.
      destruct R; lia. }
  split; [exact K|]. split.
  - intros S. rewrite K. exact (D S).
  - intros ->. unfold lastViolation, ParseInt_result in *.
    destruct R as [->| ->]; [left|right].
    + destruct (Z.ltb_spec 9223372036854775807 0); [lia|].
      destruct (Z.gtb_spec 9223372036854775807 maxSplitCount); [reflexivity|lia].
    + reflexivity.
Qed.

(** X4: every configuration CreateDownloadConfiguration returns comes
    without error, has a split count between 0 and 15, a minimum split size
    that is an int64, the symlink flag set, the checksum flag of the
    context, and the thread count the thread-count parser returned without
    error. *)
Theorem configuration_invariant (c : Context) (cfg : DownloadConfiguration)
        (err : option error) :
  CreateDownloadConfiguration JFrogHelpUrl cliutils_GetThreadsCount c
  = (Some cfg, err) ->
  err = None
  /\ 0 <= SplitCount cfg <= 15
  /\ isInt64 (MinSplitSize cfg)
  /\ Symlink cfg = true
  /\ SkipChecksum cfg = GetBoolFlagValue c "skip-checksum"
  /\ cliutils_GetThreadsCount (GetStringFlagValue c "threads")
     = (Threads cfg, None).
Proof.
  rewrite CreateDownloadConfiguration_steps.
  destruct (getMinSplit JFrogHelpUrl c DownloadMinSplitKb) as [m [e|]] eqn:Em;
    [discriminate|].
  destruct (getSplitCount JFrogHelpUrl c DownloadSplitCount DownloadMaxSplitCount)
    as [k [e|]] eqn:Ek; [discriminate|].
  destruct (cliutils_GetThreadsCount (GetStringFlagValue c "threads"))
    as [t [e|]] eqn:Et; unfold GetThreadsCount; rewrite Et; [discriminate|].
  intros [= <- <-]. cbn [SplitCount MinSplitSize Symlink SkipChecksum Threads].
  split; [reflexivity|]. split; [|split; [|repeat split]].
  - destruct (String.eqb_spec (GetStringFlagValue c "split-count") EmptyString)
      as [E|N].
    + rewrite (getSplitCount_empty JFrogHelpUrl c _ _ E) in Ek.
      injection Ek as <-. unfold DownloadSplitCount. lia.
    + rewrite (getSplitCount_supplied JFrogHelpUrl c _ _ N) in Ek.
      injection Ek as <- Ek. unfold lastViolation, DownloadMaxSplitCount in Ek.
      destruct (Z.ltb_spec (fst (strconv.Atoi (GetStringFlagValue c "split-count"))) 0);
        [discriminate|].
      destruct (Z.gtb_spec (fst (strconv.Atoi (GetStringFlagValue c "split-count"))) 15);
        [discriminate|lia].
  - destruct (String.eqb_spec (GetStringFlagValue c minSplit) EmptyString)
      as [E|N].
    + rewrite (getMinSplit_empty JFrogHelpUrl c _ E) in Em.
      injection Em as <-. unfold isInt64, DownloadMinSplitKb. lia.
    + rewrite (getMinSplit_supplied JFrogHelpUrl c _ N) in Em.
      pose proof (ParseInt_10_64_result (GetStringFlagValue c minSplit)) as R.
      destruct (strconv.ParseInt (GetStringFlagValue c minSplit) 10 64)
        as [w [e|]]; [discriminate|].
      injection Em as <-. apply (R w None eq_refl).
Qed.

Lemma Itoa_not_empty (n : Z) : isInt64 n -> strconv.Itoa n <> EmptyString.
Proof. intros B E. pose proof (ParseInt_Itoa n B) as P. now rewrite E in P. Qed.

(** X12: for every int64 n, a min-split value that is the decimal
    representation of n (as strconv.Itoa writes it) makes getMinSplit return
    n without error, whatever the default, and every configuration returned
    then has n as its minimum split size. *)
Theorem min_split_reads_back (c : Context) (defaultMinSplit n : Z) :
  isInt64 n ->
  GetStringFlagValue c minSplit = strconv.Itoa n ->
  getMinSplit JFrogHelpUrl c defaultMinSplit = (n, None)
  /\ (forall cfg err,
         CreateDownloadConfiguration JFrogHelpUrl cliutils_GetThreadsCount c
         = (Some cfg, err) ->
         MinSplitSize cfg = n).
Proof.
  intros B V.
  assert (forall d, getMinSplit JFrogHelpUrl c d = (n, None)) as M.
  { intros d.
    rewrite getMinSplit_supplied by (rewrite V; now apply Itoa_not_empty).
    now rewrite V, (ParseInt_Itoa n B). }
  split; [apply M|]. intros cfg err.
  rewrite CreateDownloadConfiguration_steps, M.
  destruct (getSplitCount JFrogHelpUrl c DownloadSplitCount DownloadMaxSplitCount)
    as [k [e|]]; [discriminate|].
  destruct (GetThreadsCount cliutils_GetThreadsCount c) as [t [e|]];
    [discriminate|].
  now intros [= <- <-].
Qed.

(** X13: for every default and maximum and every int n, a split-count
    value that is the decimal representation of n makes getSplitCount return
    n: without error when 0 <= n <= maximum, with the maximum error when n
    is above the maximum, with the negative-value error when n < 0. *)
Theorem split_count_reads_back (c : Context)
        (defaultSplitCount maxSplitCount n : Z) :
  isInt64 n ->
  GetStringFlagValue c "split-count" = strconv.Itoa n ->
  (0 <= n <= maxSplitCount ->
   getSplitCount JFrogHelpUrl c defaultSplitCount maxSplitCount = (n, None))
  /\ (0 <= n -> maxSplitCount < n ->
      getSplitCount JFrogHelpUrl c defaultSplitCount maxSplitCount
      = (n, Some (splitCountAboveMax maxSplitCount)))
  /\ (n < 0 ->
      getSplitCount JFrogHelpUrl c defaultSplitCount maxSplitCount
      = (n, Some splitCountNegative)).
Proof.
  intros B V.
  rewrite getSplitCount_supplied by (rewrite V; now apply Itoa_not_empty).
  rewrite V, (Atoi_Itoa n B). cbn [fst snd]. unfold lastViolation.
  split; [|split]; intros.
  - destruct (Z.ltb_spec n 0); [lia|].
    destruct (Z.gtb_spec n maxSplitCount); [lia|reflexivity].
  - destruct (Z.ltb_spec n 0); [lia|].
    destruct (Z.gtb_spec n maxSplitCount); [reflexivity|lia].
  - destruct (Z.ltb_spec n 0); [reflexivity|lia].
Qed.

End NumericFlagFacts.

(** X10: when the flag is set to a decimal number without leading zero
    (an optional sign, a first digit other than 0, decimal digits), the
    base-0 parse of OverrideIntIfSet reads it as the base-10 parse does: the
    integer becomes that number when it fits in 64 bits and stays as it was
    when it does not. *)
Theorem override_int_plain_decimal (field : Z) (c : Context)
        (fieldName : string) :
  IsFlagSet c fieldName = true ->
  plainDecimal (GetStringFlagValue c fieldName) = true ->
  OverrideIntIfSet field c fieldName
  = match strconv.ParseInt (GetStringFlagValue c fieldName) 10 64 with
    | (v, None) => v
    | (_, Some _) => field
    end.
Proof.
  intros S P. unfold OverrideIntIfSet. rewrite S, (ParseInt_0_plain _ P).
  destruct (strconv.ParseInt (GetStringFlagValue c fieldName) 10 64)
    as [v [e|]] eqn:E; [reflexivity|].
  apply (ParseInt_int64 _ _ _ _ E).
Qed.

(** ** More on the flags of a command *)

Section SortAnyLess.

Context {A : Type}.
Variable less : A -> A -> outcome bool.

Lemma insertBack_Permutation (x : A) (before r : list A) :
  sort.insertBack less x before = Returns r -> Permutation r (x :: before).
Proof.
  revert r; induction before as [|y before IH]; intros r; simpl.
  - now intros [= <-].
  - destruct (less x y) as [[]|]; simpl; [|now intros [= <-]|discriminate].
    destruct (sort.insertBack less x before) as [r'|]; simpl; [|discriminate].
    intros [= <-]. rewrite (IH r' eq_refl). apply perm_swap.
Qed.

Lemma insertionSort_Permutation (data before r : list A) :
  sort.insertionSort less data before = Returns r ->
  Permutation r (before ++ data).
Proof.
  revert before r; induction data as [|x data IH]; intros before r; simpl.
  - intros [= <-]. rewrite app_nil_r. symmetry. apply Permutation_rev.
  - destruct (sort.insertBack less x before) as [b'|] eqn:E; simpl;
      [|discriminate].
    intros H. rewrite (IH _ _ H), (insertBack_Permutation _ _ _ E).
    apply Permutation_middle.
Qed.

Lemma Slice_Permutation
      (pdqsortLong : (A -> A -> outcome bool) -> list A -> outcome (list A))
      (x r : list A) :
  (length x <= sort.maxInsertion)%nat ->
  sort.Slice less pdqsortLong x = Returns r -> Permutation r x.
Proof.
  intros L. unfold sort.Slice.
  destruct (Nat.leb_spec (length x) sort.maxInsertion); [|lia].
  apply insertionSort_Permutation.
Qed.

End SortAnyLess.

Section CommandFlagsMore.

Context {Flag : Type}.
Variable GetName : Flag -> string.
Variable pdqsortLong :
  (option Flag -> option Flag -> outcome bool) ->
  list (option Flag) -> outcome (list (option Flag)).

Lemma lookupFlags_all_present (keys : list string)
      (flagsMap : gmap string (option Flag)) :
  (forall key, In key keys -> default None (flagsMap !! key) <> None) ->
  exists descs : list Flag,
    Forall2 (fun key d => flagsMap !! key = Some (Some d)) keys descs.
Proof.
  induction keys as [|key keys IH]; intros H.
  - exists []. constructor.
  - destruct IH as [descs F]; [intros k I; apply H; now right|].
    specialize (H key (or_introl eq_refl)).
    destruct (flagsMap !! key) as [[d|]|] eqn:E; try contradiction.
    exists (d :: descs). now constructor.
Qed.

Lemma lookupFlags_missing_dec (keys : list string)
      (flagsMap : gmap string (option Flag)) :
  (exists key, In key keys /\ default None (flagsMap !! key) = None)
  \/ (forall key, In key keys -> default None (flagsMap !! key) <> None).
Proof.
  induction keys as [|key keys [(k & I & E)|IH]].
  - right. intros key [].
  - left. exists k. split; [now right | exact E].
  - destruct (default None (flagsMap !! key)) as [d|] eqn:E.
    + right. intros k [<-|I]; [now rewrite E | now apply IH].
    + left. exists key. split; [now left | exact E].
Qed.

(** X5: when the command key is present with at most 12 names listed (the
    slices sort.Slice sorts by insertion) and GetCommandFlags returns, the
    list returned is a rearrangement of the values looked up for the listed
    names: as many entries as names, a name listed twice gives its
    descriptor twice, and nothing is written to the log. *)
Theorem command_flags_none_dropped (cmdKey : string)
        (commandToFlags : gmap string (list string))
        (flagsMap : gmap string (option Flag))
        (names : list string) (flags : list (option Flag)) :
  commandToFlags !! cmdKey = Some names ->
  (length names <= sort.maxInsertion)%nat ->
  snd (GetCommandFlags GetName pdqsortLong cmdKey commandToFlags flagsMap)
  = Returns flags ->
  Permutation flags (map (fun name => default None (flagsMap !! name)) names)
  /\ length flags = length names
  /\ fst (GetCommandFlags GetName pdqsortLong cmdKey commandToFlags flagsMap)
     = [].
Proof.
  unfold GetCommandFlags. intros -> L. cbn [fst snd]. unfold buildAndSortFlags.
  intros H. apply Slice_Permutation in H;
    [|unfold lookupFlags; now rewrite length_map].
  fold (lookupFlags names flagsMap).
  split; [exact H|]. split; [|reflexivity].
  rewrite (Permutation_length H). unfold lookupFlags. apply length_map.
Qed.

(** X6: GetCommandFlags panics only when the command key is present, two
    names or more are listed for it and one of them has no descriptor
    (none, or nil) in the map -- for a list of more than 12 names on the
    promise of package sort for the part of sort.Slice that is not
    embedded; and with 2 to 12 names listed it does panic whenever one of
    them has no descriptor. *)
Theorem command_flags_panics_iff (cmdKey : string)
        (commandToFlags : gmap string (list string))
        (flagsMap : gmap string (option Flag)) :
  (commandToFlags !! cmdKey = None ->
   snd (GetCommandFlags GetName pdqsortLong cmdKey commandToFlags flagsMap)
   = Returns [])
  /\ (forall names : list string,
         commandToFlags !! cmdKey = Some names ->
         ((sort.maxInsertion < length names)%nat ->
          sort.SortsLong pdqsortLong) ->
         snd (GetCommandFlags GetName pdqsortLong cmdKey commandToFlags flagsMap)
         = Panics ->
         (2 <= length names)%nat
         /\ exists name,
             In name names /\ default None (flagsMap !! name) = None)
  /\ (forall names : list string,
         commandToFlags !! cmdKey = Some names ->
         (2 <= length names <= sort.maxInsertion)%nat ->
         (exists name,
             In name names /\ default None (flagsMap !! name) = None) ->
         snd (GetCommandFlags GetName pdqsortLong cmdKey commandToFlags flagsMap)
         = Panics).
Proof.
  unfold GetCommandFlags. split; [now intros ->|]. split.
  - intros names -> C. cbn [snd]. intros P.
    destruct (lookupFlags_missing_dec names flagsMap) as [E|E].
    + split; [|exact E].
      destruct names as [|k1 [|k2 names]]; simpl; try lia; discriminate.
    + exfalso.
      destruct (lookupFlags_all_present names flagsMap E) as [descs F].
      unfold buildAndSortFlags in P.
      rewrite (lookupFlags_present _ _ _ F) in P.
      rewrite (Forall2_length _ _ _ F) in C.
      destruct (Slice_names GetName pdqsortLong descs C) as (r & R & _).
      congruence.
  - intros names -> L (name & I & E). cbn [snd].
    now apply (buildAndSortFlags_missing GetName pdqsortLong names flagsMap name).
Qed.

End CommandFlagsMore.

Section CommandFlagsOrder.

Context {Flag : Type}.
Variable GetName : Flag -> string.
Variable pdqsortLong :
  (option Flag -> option Flag -> outcome bool) ->
  list (option Flag) -> outcome (list (option Flag)).

(** X7: two commands that list the same flag names in different orders get
    the same result, when every listed name has a descriptor and different
    descriptors have different names (for lists of more than 12 names, on
    the promise of package sort for the part of sort.Slice that is not
    embedded). *)
Theorem command_flags_order_independent (cmdKey1 cmdKey2 : string)
        (commandToFlags : gmap string (list string))
        (flagsMap : gmap string (option Flag))
        (names1 names2 : list string) (descs : list Flag) :
  commandToFlags !! cmdKey1 = Some names1 ->
  commandToFlags !! cmdKey2 = Some names2 ->
  Permutation names1 names2 ->
  Forall2 (fun name d => flagsMap !! name = Some (Some d)) names1 descs ->
  (forall x y, In x descs -> In y descs -> GetName x = GetName y -> x = y) ->
  ((sort.maxInsertion < length names1)%nat -> sort.SortsLong pdqsortLong) ->
  GetCommandFlags GetName pdqsortLong cmdKey1 commandToFlags flagsMap
  = GetCommandFlags GetName pdqsortLong cmdKey2 commandToFlags flagsMap.
Proof.
  intros H1 H2 P F1 Inj C. unfold GetCommandFlags. rewrite H1, H2. f_equal.
  destruct (Permutation_Forall2 P F1) as (descs2 & P2 & F2).
  unfold buildAndSortFlags.
  rewrite (lookupFlags_present _ _ _ F1), (lookupFlags_present _ _ _ F2).
  rewrite (Forall2_length _ _ _ F1) in C.
  destruct (Slice_names GetName pdqsortLong descs C) as (r1 & -> & Q1 & S1).
  rewrite (Permutation_length P2) in C.
  destruct (Slice_names GetName pdqsortLong descs2 C) as (r2 & -> & Q2 & S2).
  do 2 f_equal.
  apply (StronglySorted_unique_strong (nameLe GetName)); trivial.
  - intros x1 x2 I1 I2 L1 L2. apply Inj.
    + apply (Permutation_in _ Q1). now apply list_elem_of_In.
    + apply (Permutation_in _ (Permutation_sym P2)), (Permutation_in _ Q2).
      now apply list_elem_of_In.
    + now apply String.leb_antisym.
  - now rewrite Q1, Q2.
Qed.

End CommandFlagsOrder.

(** X8: GetStringsArrFlagValue returns the empty list exactly when the
    flag is not set; for a flag that is set the list has one element at
    least, and a flag set to the empty string gives the list of one empty
    string. *)
Theorem strings_array_empty_iff_unset (c : Context) (flagName : string) :
  (GetStringsArrFlagValue c flagName = [] <-> IsFlagSet c flagName = false)
  /\ (IsFlagSet c flagName = true ->
      (1 <= length (GetStringsArrFlagValue c flagName))%nat)
  /\ (IsFlagSet c flagName = true ->
      GetStringFlagValue c flagName = EmptyString ->
      GetStringsArrFlagValue c flagName = [EmptyString]).
Proof.
  unfold GetStringsArrFlagValue.
  destruct (IsFlagSet c flagName); cbn [app].
  - split; [|split].
    + split; [|discriminate]. intros H. now apply Split_not_nil in H.
    + intros _. rewrite length_Split. lia.
    + now intros _ ->.
  - split; [|split]; try discriminate. now split.
Qed.

(** X9: OverrideArrayIfSet leaves the array as it is when the flag is not
    set; when the flag is set it discards the array and stores what
    GetStringsArrFlagValue returns, which is never empty and joins back to
    the flag's value; applying it twice is applying it once. *)
Theorem override_array_if_set (field : list string) (c : Context)
        (fieldName : string) :
  (IsFlagSet c fieldName = false ->
   OverrideArrayIfSet field c fieldName = field)
  /\ (IsFlagSet c fieldName = true ->
      OverrideArrayIfSet field c fieldName = GetStringsArrFlagValue c fieldName
      /\ OverrideArrayIfSet field c fieldName <> []
      /\ strings.Join (OverrideArrayIfSet field c fieldName) ";"
         = GetStringFlagValue c fieldName)
  /\ OverrideArrayIfSet (OverrideArrayIfSet field c fieldName) c fieldName
     = OverrideArrayIfSet field c fieldName.
Proof.
  unfold OverrideArrayIfSet, GetStringsArrFlagValue.
  destruct (IsFlagSet c fieldName); cbn [app].
  - split; [discriminate|]. split; [|reflexivity]. intros _.
    split; [reflexivity|]. split; [apply Split_not_nil | apply Join_Split].
  - split; [reflexivity|]. split; [discriminate|reflexivity].
Qed.

Section EnvironmentMore.

Variable CI : string.

Lemma ParseBool_true (v : string) :
  strconv.ParseBool v = (true, None) <-> In v trueValues.
Proof.
  unfold strconv.ParseBool, trueValues. simpl In.
  destruct (String.eqb_spec v "1") as [->|N1]; [intuition|].
  destruct (String.eqb_spec v "t") as [->|N2]; [intuition|].
  destruct (String.eqb_spec v "T") as [->|N3]; [intuition|].
  destruct (String.eqb_spec v "true") as [->|N4]; [intuition|].
  destruct (String.eqb_spec v "TRUE") as [->|N5]; [intuition|].
  destruct (String.eqb_spec v "True") as [->|N6]; [intuition|].
  cbn [orb].
  split; [|intuition congruence].
  match goal with |- context [if ?b then _ else _] => destruct b end;
    discriminate.
Qed.

(** X11: getCiValue is true exactly when the value of the CI variable is
    one of 1, t, T, true, TRUE, True; a variable set to the empty string
    counts as one that is not set. *)
Theorem ci_value_true_values (env : gmap string string) :
  (getCiValue CI env = true <-> In (os_Getenv env CI) trueValues)
  /\ getCiValue CI (<[CI := EmptyString]> env) = getCiValue CI (delete CI env).
Proof.
  split.
  - rewrite getCiValue_true. unfold os_Getenv.
    destruct (env !! CI) as [v|]; cbn [default].
    + split.
      * intros (w & [= <-] & H). now apply ParseBool_true.
      * intros H. exists v. split; [reflexivity | now apply ParseBool_true].
    + split; [now intros (w & H & _) | intros H; vm_compute in H; intuition discriminate].
  - unfold getCiValue, GetBoolEnvValue, os_Getenv.
    now rewrite lookup_insert_eq, lookup_delete_eq.
Qed.

End EnvironmentMore.

(** ** The further properties at concrete inputs *)

Lemma min_split_decimal_syntax_witness :
  getMinSplit Example.JFrogHelpUrl
    (Example.flagsContext {[ "min-split" := "0x10" ]} ∅) DownloadMinSplitKb
  = (0, Some (minSplitNotNumeric Example.JFrogHelpUrl)).
Proof.
  pose proof (min_split_decimal_syntax Example.JFrogHelpUrl
                (Example.flagsContext {[ "min-split" := "0x10" ]} ∅)
                DownloadMinSplitKb) as H.
  assert (GetStringFlagValue (Example.flagsContext {[ "min-split" := "0x10" ]} ∅)
            minSplit <> EmptyString) as V by (vm_compute; discriminate).
  destruct (H V) as (_ & K & _). apply K. vm_compute. reflexivity.
Defined.

Lemma split_count_accepted_witness :
  (GetStringFlagValue (Example.flagsContext {[ "split-count" := "7" ]} ∅)
     "split-count" = EmptyString
   /\ fst (getSplitCount Example.JFrogHelpUrl
             (Example.flagsContext {[ "split-count" := "7" ]} ∅)
             DownloadSplitCount DownloadMaxSplitCount) = DownloadSplitCount)
  \/ (decimalSyntax
        (GetStringFlagValue (Example.flagsContext {[ "split-count" := "7" ]} ∅)
           "split-count") = true
      /\ 0 <= fst (getSplitCount Example.JFrogHelpUrl
                     (Example.flagsContext {[ "split-count" := "7" ]} ∅)
                     DownloadSplitCount DownloadMaxSplitCount)
         <= DownloadMaxSplitCount).
Proof.
  apply (split_count_accepted Example.JFrogHelpUrl
           (Example.flagsContext {[ "split-count" := "7" ]} ∅)
           DownloadSplitCount DownloadMaxSplitCount).
  vm_compute. reflexivity.
Defined.

Lemma split_count_error_kind_witness :
  getSplitCount Example.JFrogHelpUrl
    (Example.flagsContext {[ "split-count" := "99999999999999999999" ]} ∅)
    DownloadSplitCount DownloadMaxSplitCount
  = (9223372036854775807, Some (splitCountAboveMax DownloadMaxSplitCount))
  \/ getSplitCount Example.JFrogHelpUrl
       (Example.flagsContext {[ "split-count" := "99999999999999999999" ]} ∅)
       DownloadSplitCount DownloadMaxSplitCount
     = (-9223372036854775808, Some splitCountNegative).
Proof.
  pose proof (split_count_error_kind Example.JFrogHelpUrl
                (Example.flagsContext
                   {[ "split-count" := "99999999999999999999" ]} ∅)
                DownloadSplitCount DownloadMaxSplitCount) as H.
  assert (GetStringFlagValue
            (Example.flagsContext
               {[ "split-count" := "99999999999999999999" ]} ∅) "split-count"
          <> EmptyString) as V by (vm_compute; discriminate).
  assert (0 <= DownloadMaxSplitCount < 9223372036854775807) as R
      by (unfold DownloadMaxSplitCount; lia).
  destruct (H V R) as (_ & _ & K). apply K. vm_compute. reflexivity.
Defined.

Lemma configuration_invariant_witness :
  0 <= SplitCount {| Threads := 3; SplitCount := 7; MinSplitSize := 5120;
                     Symlink := true; SkipChecksum := false |} <= 15.
Proof.
  pose proof (configuration_invariant Example.JFrogHelpUrl
                Example.GetThreadsCount
                (Example.flagsContext {[ "split-count" := "7" ]} ∅)
                {| Threads := 3; SplitCount := 7; MinSplitSize := 5120;
                   Symlink := true; SkipChecksum := false |} None) as H.
  assert (CreateDownloadConfiguration Example.JFrogHelpUrl
            Example.GetThreadsCount
            (Example.flagsContext {[ "split-count" := "7" ]} ∅)
          = (Some {| Threads := 3; SplitCount := 7; MinSplitSize := 5120;
                     Symlink := true; SkipChecksum := false |}, None)) as V
      by (vm_compute; reflexivity).
  exact (proj1 (proj2 (H V))).
Defined.

Lemma min_split_reads_back_witness :
  getMinSplit Example.JFrogHelpUrl
    (Example.flagsContext {[ "min-split" := "-9223372036854775808" ]} ∅)
    DownloadMinSplitKb
  = (-9223372036854775808, None).
Proof.
  pose proof (min_split_reads_back Example.JFrogHelpUrl Example.GetThreadsCount
                (Example.flagsContext
                   {[ "min-split" := "-9223372036854775808" ]} ∅)
                DownloadMinSplitKb (-9223372036854775808)) as H.
  assert (isInt64 (-9223372036854775808)) as B by (unfold isInt64; lia).
  assert (GetStringFlagValue
            (Example.flagsContext
               {[ "min-split" := "-9223372036854775808" ]} ∅) minSplit
          = strconv.Itoa (-9223372036854775808)) as V
      by (vm_compute; reflexivity).
  exact (proj1 (H B V)).
Defined.

Lemma split_count_reads_back_witness :
  getSplitCount Example.JFrogHelpUrl
    (Example.flagsContext {[ "split-count" := "12" ]} ∅) 5 20 = (12, None)
  /\ getSplitCount Example.JFrogHelpUrl
       (Example.flagsContext {[ "split-count" := "12" ]} ∅) 5 10
     = (12, Some (splitCountAboveMax 10)).
Proof.
  assert (isInt64 12) as B by (unfold isInt64; lia).
  assert (GetStringFlagValue
            (Example.flagsContext {[ "split-count" := "12" ]} ∅) "split-count"
          = strconv.Itoa 12) as V by (vm_compute; reflexivity).
  split.
  - apply (proj1 (split_count_reads_back Example.JFrogHelpUrl
                    (Example.flagsContext {[ "split-count" := "12" ]} ∅)
                    5 20 12 B V)). lia.
  - apply (proj1 (proj2 (split_count_reads_back Example.JFrogHelpUrl
                           (Example.flagsContext {[ "split-count" := "12" ]} ∅)
                           5 10 12 B V))); lia.
Defined.

Lemma override_int_plain_decimal_witness :
  OverrideIntIfSet 3 (Example.flagsContext {[ "retries" := "-42" ]} ∅) "retries"
  = match strconv.ParseInt
            (GetStringFlagValue
               (Example.flagsContext {[ "retries" := "-42" ]} ∅) "retries")
            10 64 with
    | (v, None) => v
    | (_, Some _) => 3
    end.
Proof.
  apply (override_int_plain_decimal 3
           (Example.flagsContext {[ "retries" := "-42" ]} ∅) "retries");
    vm_compute; reflexivity.
Defined.

(** With a leading zero the two parses part: base 0 reads octal. *)
Example override_int_leading_zero :
  OverrideIntIfSet 3 (Example.flagsContext {[ "retries" := "010" ]} ∅) "retries"
  = 8
  /\ strconv.ParseInt "010" 10 64 = (10, None).
Proof. split; vm_compute; reflexivity. Qed.

Lemma command_flags_none_dropped_witness :
  Permutation [Some Example.quietFlag; Some Example.threadsFlag]
    (map (fun name => default None (Example.flagsMap !! name))
         ["threads"; "quiet"])
  /\ length [Some Example.quietFlag; Some Example.threadsFlag]
     = length ["threads"; "quiet"]
  /\ fst (GetCommandFlags Example.Name Example.longSort "build"
            Example.commandToFlags Example.flagsMap) = [].
Proof.
  apply (command_flags_none_dropped Example.Name Example.longSort "build"
           Example.commandToFlags Example.flagsMap ["threads"; "quiet"]
           [Some Example.quietFlag; Some Example.threadsFlag]).
  - vm_compute. reflexivity.
  - simpl. unfold sort.maxInsertion. lia.
  - vm_compute. reflexivity.
Defined.

Lemma command_flags_panics_iff_witness :
  snd (GetCommandFlags Example.Name Example.longSort "build"
         Example.commandToFlags
         {[ "threads" := Some Example.threadsFlag ]}) = Panics.
Proof.
  apply (proj2 (proj2 (command_flags_panics_iff Example.Name
                         Example.longSort "build" Example.commandToFlags
                         {[ "threads" := Some Example.threadsFlag ]}))
               ["threads"; "quiet"]).
  - vm_compute. reflexivity.
  - simpl. unfold sort.maxInsertion. lia.
  - exists "quiet".
    split; [right; left; reflexivity | vm_compute; reflexivity].
Defined.

Lemma command_flags_order_independent_witness :
  GetCommandFlags Example.Name Example.longSort "build" twoCommands
    Example.flagsMap
  = GetCommandFlags Example.Name Example.longSort "scan" twoCommands
      Example.flagsMap.
Proof.
  apply (command_flags_order_independent Example.Name Example.longSort
           "build" "scan" twoCommands Example.flagsMap ["threads"; "quiet"]
           ["quiet"; "threads"] [Example.threadsFlag; Example.quietFlag]).
  - vm_compute. reflexivity.
  - vm_compute. reflexivity.
  - apply perm_swap.
  - repeat constructor.
  - intros x y [<-|[<-|[]]] [<-|[<-|[]]] H; try reflexivity;
      vm_compute in H; discriminate H.
  - intros _. apply insertionSort_SortsLong.
Defined.

Lemma strings_array_empty_iff_unset_witness :
  GetStringsArrFlagValue
    (Example.flagsContext {[ "exclusions" := EmptyString ]} ∅) "exclusions"
  = [EmptyString].
Proof.
  apply (proj2 (proj2 (strings_array_empty_iff_unset
                         (Example.flagsContext
                            {[ "exclusions" := EmptyString ]} ∅)
                         "exclusions"))); vm_compute; reflexivity.
Defined.

Lemma override_array_if_set_witness :
  OverrideArrayIfSet ["old"] (Example.flagsContext ∅ ∅) "exclusions" = ["old"]
  /\ OverrideArrayIfSet ["old"]
       (Example.flagsContext {[ "exclusions" := "a;b" ]} ∅) "exclusions"
     = GetStringsArrFlagValue
         (Example.flagsContext {[ "exclusions" := "a;b" ]} ∅) "exclusions".
Proof.
  split.
  - apply (proj1 (override_array_if_set ["old"] (Example.flagsContext ∅ ∅)
                    "exclusions")). vm_compute. reflexivity.
  - pose proof (proj1 (proj2 (override_array_if_set ["old"]
                                (Example.flagsContext
                                   {[ "exclusions" := "a;b" ]} ∅)
                                "exclusions"))) as H.
    assert (IsFlagSet (Example.flagsContext {[ "exclusions" := "a;b" ]} ∅)
                      "exclusions" = true) as V by (vm_compute; reflexivity).
    exact (proj1 (H V)).
Defined.

Lemma ci_value_true_values_witness :
  getCiValue Example.CI {[ "CI" := "T" ]} = true.
Proof.
  apply (proj2 (proj1 (ci_value_true_values Example.CI {[ "CI" := "T" ]}))).
  vm_compute. right. right. left. reflexivity.
Defined.

(** ** The project key *)

Section ProjectMore.

Variable Project : string.

(** X14: GetProject is the empty string exactly when the project flag's
    value is empty and the project environment variable is empty or not
    set; a flag whose value is empty, set or not, gives way to the
    environment variable. *)
Theorem project_empty_iff (c : Context) (env : gmap string string) :
  (GetProject Project c env = EmptyString <->
   GetStringFlagValue c "project" = EmptyString
   /\ (env !! Project = None \/ env !! Project = Some EmptyString))
  /\ (GetStringFlagValue c "project" = EmptyString ->
      GetProject Project c env = os_Getenv env Project).
Proof.
  unfold GetProject, getOrDefaultEnv, os_Getenv.
  destruct (String.eqb_spec (GetStringFlagValue c "project") EmptyString)
    as [->|N]; cbn [negb].
  - split; [|reflexivity].
    destruct (env !! Project) as [v|]; unfold default, id.
    + split; [intros ->; split; [reflexivity | now right]|].
      intros [_ [H|[= ->]]]; [discriminate | reflexivity].
    + split; [intros _; split; [reflexivity | now left] | reflexivity].
  - split; [|contradiction]. split; [contradiction | now intros [H _]].
Qed.

End ProjectMore.

Lemma project_empty_iff_witness :
  GetProject Example.Project
    (Example.flagsContext {[ "project" := EmptyString ]} ∅)
    {[ "JFROG_CLI_BUILD_PROJECT" := EmptyString ]} = EmptyString.
Proof.
  apply (proj2 (proj1 (project_empty_iff Example.Project
                         (Example.flagsContext {[ "project" := EmptyString ]} ∅)
                         {[ "JFROG_CLI_BUILD_PROJECT" := EmptyString ]}))).
  split; [vm_compute; reflexivity | right; vm_compute; reflexivity].
Defined.
